(** * SerenaCLI: the result normalizer, the command pipeline and the
    native client

    A shallow embedding of [src/serena_cli/main.py] (the MCP command line
    client: [get_symbol_kind_name], [transform_symbol_result] and
    [main_async] from the server command on), of
    [serena_native/serena_client.py] (the methods of [SerenaClient]) and of
    [serena_native/cli.py] ([main] from the creation of the client on, and
    [print_text_output]).

    Python values that come out of [json.loads] are the inductive [json];
    a Python [str] is the sequence of its code points, [str]; a Python
    [dict] with string keys is a [gmap str json], whose equality is the one
    of Python's [==] on dicts (same keys, same values, in any order).  A
    raised exception is the [Raise] case of [result]. *)

From Stdlib Require Import ZArith NArith List.
From stdpp Require Import gmap list fin_maps pretty.

Local Set Warnings "-register-all".
Local Open Scope Z_scope.

(** ** The Unicode database

    What [str.lower], [str.split], [str.strip] and the pattern [\d] know
    about the code points.  The tables are those of Unicode 14.0.0, the
    version of CPython 3.11. *)

Module Unicode.

(** The decimal digits, which [str.isdecimal] accepts and [\d] matches:
    the ranges of the general category Nd, first and last code point. *)
Definition decimal_digits : list (N * N) :=
  [ (48, 57); (1632, 1641); (1776, 1785); (1984, 1993); (2406, 2415);
    (2534, 2543); (2662, 2671); (2790, 2799); (2918, 2927); (3046, 3055);
    (3174, 3183); (3302, 3311); (3430, 3439); (3558, 3567); (3664, 3673);
    (3792, 3801); (3872, 3881); (4160, 4169); (4240, 4249); (6112, 6121);
    (6160, 6169); (6470, 6479); (6608, 6617); (6784, 6793); (6800, 6809);
    (6992, 7001); (7088, 7097); (7232, 7241); (7248, 7257); (42528, 42537);
    (43216, 43225); (43264, 43273); (43472, 43481); (43504, 43513);
    (43600, 43609); (44016, 44025); (65296, 65305); (66720, 66729);
    (68912, 68921); (69734, 69743); (69872, 69881); (69942, 69951);
    (70096, 70105); (70384, 70393); (70736, 70745); (70864, 70873);
    (71248, 71257); (71360, 71369); (71472, 71481); (71904, 71913);
    (72016, 72025); (72784, 72793); (73040, 73049); (73120, 73129);
    (92768, 92777); (92864, 92873); (93008, 93017); (120782, 120831);
    (123200, 123209); (123632, 123641); (125264, 125273);
    (130032, 130041) ]%N.

(** The white space of [str.isspace], [str.split] and [str.strip]. *)
Definition white_space : list (N * N) :=
  [ (9, 13); (28, 32); (133, 133); (160, 160); (5760, 5760); (8192, 8202);
    (8232, 8233); (8239, 8239); (8287, 8287); (12288, 12288) ]%N.

(** The simple lower-case mappings, in runs [(first, last, step, target)]:
    the code points [first], [first + step], ... up to [last] map to
    [target], [target + step], ... *)
Definition lower_case : list (N * N * N * N) :=
  [ (65, 90, 1, 97); (192, 214, 1, 224); (216, 222, 1, 248);
    (256, 302, 2, 257); (306, 310, 2, 307); (313, 327, 2, 314);
    (330, 374, 2, 331); (376, 376, 1, 255); (377, 381, 2, 378);
    (385, 385, 1, 595); (386, 388, 2, 387); (390, 390, 1, 596);
    (391, 391, 1, 392); (393, 394, 1, 598); (395, 395, 1, 396);
    (398, 398, 1, 477); (399, 399, 1, 601); (400, 400, 1, 603);
    (401, 401, 1, 402); (403, 403, 1, 608); (404, 404, 1, 611);
    (406, 406, 1, 617); (407, 407, 1, 616); (408, 408, 1, 409);
    (412, 412, 1, 623); (413, 413, 1, 626); (415, 415, 1, 629);
    (416, 420, 2, 417); (422, 422, 1, 640); (423, 423, 1, 424);
    (425, 425, 1, 643); (428, 428, 1, 429); (430, 430, 1, 648);
    (431, 431, 1, 432); (433, 434, 1, 650); (435, 437, 2, 436);
    (439, 439, 1, 658); (440, 440, 1, 441); (444, 444, 1, 445);
    (452, 452, 1, 454); (453, 453, 1, 454); (455, 455, 1, 457);
    (456, 456, 1, 457); (458, 458, 1, 460); (459, 475, 2, 460);
    (478, 494, 2, 479); (497, 497, 1, 499); (498, 500, 2, 499);
    (502, 502, 1, 405); (503, 503, 1, 447); (504, 542, 2, 505);
    (544, 544, 1, 414); (546, 562, 2, 547); (570, 570, 1, 11365);
    (571, 571, 1, 572); (573, 573, 1, 410); (574, 574, 1, 11366);
    (577, 577, 1, 578); (579, 579, 1, 384); (580, 580, 1, 649);
    (581, 581, 1, 652); (582, 590, 2, 583); (880, 882, 2, 881);
    (886, 886, 1, 887); (895, 895, 1, 1011); (902, 902, 1, 940);
    (904, 906, 1, 941); (908, 908, 1, 972); (910, 911, 1, 973);
    (913, 929, 1, 945); (932, 939, 1, 964); (975, 975, 1, 983);
    (984, 1006, 2, 985); (1012, 1012, 1, 952); (1015, 1015, 1, 1016);
    (1017, 1017, 1, 1010); (1018, 1018, 1, 1019); (1021, 1023, 1, 891);
    (1024, 1039, 1, 1104); (1040, 1071, 1, 1072); (1120, 1152, 2, 1121);
    (1162, 1214, 2, 1163); (1216, 1216, 1, 1231); (1217, 1229, 2, 1218);
    (1232, 1326, 2, 1233); (1329, 1366, 1, 1377); (4256, 4293, 1, 11520);
    (4295, 4295, 1, 11559); (4301, 4301, 1, 11565); (5024, 5103, 1, 43888);
    (5104, 5109, 1, 5112); (7312, 7354, 1, 4304); (7357, 7359, 1, 4349);
    (7680, 7828, 2, 7681); (7838, 7838, 1, 223); (7840, 7934, 2, 7841);
    (7944, 7951, 1, 7936); (7960, 7965, 1, 7952); (7976, 7983, 1, 7968);
    (7992, 7999, 1, 7984); (8008, 8013, 1, 8000); (8025, 8031, 2, 8017);
    (8040, 8047, 1, 8032); (8072, 8079, 1, 8064); (8088, 8095, 1, 8080);
    (8104, 8111, 1, 8096); (8120, 8121, 1, 8112); (8122, 8123, 1, 8048);
    (8124, 8124, 1, 8115); (8136, 8139, 1, 8050); (8140, 8140, 1, 8131);
    (8152, 8153, 1, 8144); (8154, 8155, 1, 8054); (8168, 8169, 1, 8160);
    (8170, 8171, 1, 8058); (8172, 8172, 1, 8165); (8184, 8185, 1, 8056);
    (8186, 8187, 1, 8060); (8188, 8188, 1, 8179); (8486, 8486, 1, 969);
    (8490, 8490, 1, 107); (8491, 8491, 1, 229); (8498, 8498, 1, 8526);
    (8544, 8559, 1, 8560); (8579, 8579, 1, 8580); (9398, 9423, 1, 9424);
    (11264, 11311, 1, 11312); (11360, 11360, 1, 11361);
    (11362, 11362, 1, 619); (11363, 11363, 1, 7549); (11364, 11364, 1, 637);
    (11367, 11371, 2, 11368); (11373, 11373, 1, 593); (11374, 11374, 1, 625);
    (11375, 11375, 1, 592); (11376, 11376, 1, 594); (11378, 11378, 1, 11379);
    (11381, 11381, 1, 11382); (11390, 11391, 1, 575);
    (11392, 11490, 2, 11393); (11499, 11501, 2, 11500);
    (11506, 11506, 1, 11507); (42560, 42604, 2, 42561);
    (42624, 42650, 2, 42625); (42786, 42798, 2, 42787);
    (42802, 42862, 2, 42803); (42873, 42875, 2, 42874);
    (42877, 42877, 1, 7545); (42878, 42886, 2, 42879);
    (42891, 42891, 1, 42892); (42893, 42893, 1, 613);
    (42896, 42898, 2, 42897); (42902, 42920, 2, 42903);
    (42922, 42922, 1, 614); (42923, 42923, 1, 604); (42924, 42924, 1, 609);
    (42925, 42925, 1, 620); (42926, 42926, 1, 618); (42928, 42928, 1, 670);
    (42929, 42929, 1, 647); (42930, 42930, 1, 669); (42931, 42931, 1, 43859);
    (42932, 42946, 2, 42933); (42948, 42948, 1, 42900);
    (42949, 42949, 1, 642); (42950, 42950, 1, 7566);
    (42951, 42953, 2, 42952); (42960, 42960, 1, 42961);
    (42966, 42968, 2, 42967); (42997, 42997, 1, 42998);
    (65313, 65338, 1, 65345); (66560, 66599, 1, 66600);
    (66736, 66771, 1, 66776); (66928, 66938, 1, 66967);
    (66940, 66954, 1, 66979); (66956, 66962, 1, 66995);
    (66964, 66965, 1, 67003); (68736, 68786, 1, 68800);
    (71840, 71871, 1, 71872); (93760, 93791, 1, 93792);
    (125184, 125217, 1, 125218) ]%N.

(** The cased code points: the letters in upper, lower or title case. *)
Definition cased : list (N * N) :=
  [ (65, 90); (97, 122); (170, 170); (181, 181); (186, 186); (192, 214);
    (216, 246); (248, 442); (444, 447); (452, 659); (661, 696); (704, 705);
    (736, 740); (837, 837); (880, 883); (886, 887); (890, 893); (895, 895);
    (902, 902); (904, 906); (908, 908); (910, 929); (931, 1013);
    (1015, 1153); (1162, 1327); (1329, 1366); (1376, 1416); (4256, 4293);
    (4295, 4295); (4301, 4301); (4304, 4346); (4349, 4351); (5024, 5109);
    (5112, 5117); (7296, 7304); (7312, 7354); (7357, 7359); (7424, 7615);
    (7680, 7957); (7960, 7965); (7968, 8005); (8008, 8013); (8016, 8023);
    (8025, 8025); (8027, 8027); (8029, 8029); (8031, 8061); (8064, 8116);
    (8118, 8124); (8126, 8126); (8130, 8132); (8134, 8140); (8144, 8147);
    (8150, 8155); (8160, 8172); (8178, 8180); (8182, 8188); (8305, 8305);
    (8319, 8319); (8336, 8348); (8450, 8450); (8455, 8455); (8458, 8467);
    (8469, 8469); (8473, 8477); (8484, 8484); (8486, 8486); (8488, 8488);
    (8490, 8493); (8495, 8500); (8505, 8505); (8508, 8511); (8517, 8521);
    (8526, 8526); (8544, 8575); (8579, 8580); (9398, 9449); (11264, 11492);
    (11499, 11502); (11506, 11507); (11520, 11557); (11559, 11559);
    (11565, 11565); (42560, 42605); (42624, 42653); (42786, 42887);
    (42891, 42894); (42896, 42954); (42960, 42961); (42963, 42963);
    (42965, 42969); (42997, 42998); (43000, 43002); (43824, 43866);
    (43868, 43880); (43888, 43967); (64256, 64262); (64275, 64279);
    (65313, 65338); (65345, 65370); (66560, 66639); (66736, 66771);
    (66776, 66811); (66928, 66938); (66940, 66954); (66956, 66962);
    (66964, 66965); (66967, 66977); (66979, 66993); (66995, 67001);
    (67003, 67004); (67456, 67456); (67459, 67461); (67463, 67504);
    (67506, 67514); (68736, 68786); (68800, 68850); (71840, 71903);
    (93760, 93823); (119808, 119892); (119894, 119964); (119966, 119967);
    (119970, 119970); (119973, 119974); (119977, 119980); (119982, 119993);
    (119995, 119995); (119997, 120003); (120005, 120069); (120071, 120074);
    (120077, 120084); (120086, 120092); (120094, 120121); (120123, 120126);
    (120128, 120132); (120134, 120134); (120138, 120144); (120146, 120485);
    (120488, 120512); (120514, 120538); (120540, 120570); (120572, 120596);
    (120598, 120628); (120630, 120654); (120656, 120686); (120688, 120712);
    (120714, 120744); (120746, 120770); (120772, 120779); (122624, 122633);
    (122635, 122654); (125184, 125251); (127280, 127305); (127312, 127337);
    (127344, 127369) ]%N.

(** The case-ignorable code points: marks, modifiers and punctuation that
    may stand inside a word. *)
Definition case_ignorable : list (N * N) :=
  [ (39, 39); (46, 46); (58, 58); (94, 94); (96, 96); (168, 168); (173, 173);
    (175, 175); (180, 180); (183, 184); (688, 879); (884, 885); (890, 890);
    (900, 901); (903, 903); (1155, 1161); (1369, 1369); (1375, 1375);
    (1425, 1469); (1471, 1471); (1473, 1474); (1476, 1477); (1479, 1479);
    (1524, 1524); (1536, 1541); (1552, 1562); (1564, 1564); (1600, 1600);
    (1611, 1631); (1648, 1648); (1750, 1757); (1759, 1768); (1770, 1773);
    (1807, 1807); (1809, 1809); (1840, 1866); (1958, 1968); (2027, 2037);
    (2042, 2042); (2045, 2045); (2070, 2093); (2137, 2139); (2184, 2184);
    (2192, 2193); (2200, 2207); (2249, 2306); (2362, 2362); (2364, 2364);
    (2369, 2376); (2381, 2381); (2385, 2391); (2402, 2403); (2417, 2417);
    (2433, 2433); (2492, 2492); (2497, 2500); (2509, 2509); (2530, 2531);
    (2558, 2558); (2561, 2562); (2620, 2620); (2625, 2626); (2631, 2632);
    (2635, 2637); (2641, 2641); (2672, 2673); (2677, 2677); (2689, 2690);
    (2748, 2748); (2753, 2757); (2759, 2760); (2765, 2765); (2786, 2787);
    (2810, 2815); (2817, 2817); (2876, 2876); (2879, 2879); (2881, 2884);
    (2893, 2893); (2901, 2902); (2914, 2915); (2946, 2946); (3008, 3008);
    (3021, 3021); (3072, 3072); (3076, 3076); (3132, 3132); (3134, 3136);
    (3142, 3144); (3146, 3149); (3157, 3158); (3170, 3171); (3201, 3201);
    (3260, 3260); (3263, 3263); (3270, 3270); (3276, 3277); (3298, 3299);
    (3328, 3329); (3387, 3388); (3393, 3396); (3405, 3405); (3426, 3427);
    (3457, 3457); (3530, 3530); (3538, 3540); (3542, 3542); (3633, 3633);
    (3636, 3642); (3654, 3662); (3761, 3761); (3764, 3772); (3782, 3782);
    (3784, 3789); (3864, 3865); (3893, 3893); (3895, 3895); (3897, 3897);
    (3953, 3966); (3968, 3972); (3974, 3975); (3981, 3991); (3993, 4028);
    (4038, 4038); (4141, 4144); (4146, 4151); (4153, 4154); (4157, 4158);
    (4184, 4185); (4190, 4192); (4209, 4212); (4226, 4226); (4229, 4230);
    (4237, 4237); (4253, 4253); (4348, 4348); (4957, 4959); (5906, 5908);
    (5938, 5939); (5970, 5971); (6002, 6003); (6068, 6069); (6071, 6077);
    (6086, 6086); (6089, 6099); (6103, 6103); (6109, 6109); (6155, 6159);
    (6211, 6211); (6277, 6278); (6313, 6313); (6432, 6434); (6439, 6440);
    (6450, 6450); (6457, 6459); (6679, 6680); (6683, 6683); (6742, 6742);
    (6744, 6750); (6752, 6752); (6754, 6754); (6757, 6764); (6771, 6780);
    (6783, 6783); (6823, 6823); (6832, 6862); (6912, 6915); (6964, 6964);
    (6966, 6970); (6972, 6972); (6978, 6978); (7019, 7027); (7040, 7041);
    (7074, 7077); (7080, 7081); (7083, 7085); (7142, 7142); (7144, 7145);
    (7149, 7149); (7151, 7153); (7212, 7219); (7222, 7223); (7288, 7293);
    (7376, 7378); (7380, 7392); (7394, 7400); (7405, 7405); (7412, 7412);
    (7416, 7417); (7468, 7530); (7544, 7544); (7579, 7679); (8125, 8125);
    (8127, 8129); (8141, 8143); (8157, 8159); (8173, 8175); (8189, 8190);
    (8203, 8207); (8216, 8217); (8228, 8228); (8231, 8231); (8234, 8238);
    (8288, 8292); (8294, 8303); (8305, 8305); (8319, 8319); (8336, 8348);
    (8400, 8432); (11388, 11389); (11503, 11505); (11631, 11631);
    (11647, 11647); (11744, 11775); (11823, 11823); (12293, 12293);
    (12330, 12333); (12337, 12341); (12347, 12347); (12441, 12446);
    (12540, 12542); (40981, 40981); (42232, 42237); (42508, 42508);
    (42607, 42610); (42612, 42621); (42623, 42623); (42652, 42655);
    (42736, 42737); (42752, 42785); (42864, 42864); (42888, 42890);
    (42994, 42996); (43000, 43001); (43010, 43010); (43014, 43014);
    (43019, 43019); (43045, 43046); (43052, 43052); (43204, 43205);
    (43232, 43249); (43263, 43263); (43302, 43309); (43335, 43345);
    (43392, 43394); (43443, 43443); (43446, 43449); (43452, 43453);
    (43471, 43471); (43493, 43494); (43561, 43566); (43569, 43570);
    (43573, 43574); (43587, 43587); (43596, 43596); (43632, 43632);
    (43644, 43644); (43696, 43696); (43698, 43700); (43703, 43704);
    (43710, 43711); (43713, 43713); (43741, 43741); (43756, 43757);
    (43763, 43764); (43766, 43766); (43867, 43871); (43881, 43883);
    (44005, 44005); (44008, 44008); (44013, 44013); (64286, 64286);
    (64434, 64450); (65024, 65039); (65043, 65043); (65056, 65071);
    (65106, 65106); (65109, 65109); (65279, 65279); (65287, 65287);
    (65294, 65294); (65306, 65306); (65342, 65342); (65344, 65344);
    (65392, 65392); (65438, 65439); (65507, 65507); (65529, 65531);
    (66045, 66045); (66272, 66272); (66422, 66426); (67456, 67461);
    (67463, 67504); (67506, 67514); (68097, 68099); (68101, 68102);
    (68108, 68111); (68152, 68154); (68159, 68159); (68325, 68326);
    (68900, 68903); (69291, 69292); (69446, 69456); (69506, 69509);
    (69633, 69633); (69688, 69702); (69744, 69744); (69747, 69748);
    (69759, 69761); (69811, 69814); (69817, 69818); (69821, 69821);
    (69826, 69826); (69837, 69837); (69888, 69890); (69927, 69931);
    (69933, 69940); (70003, 70003); (70016, 70017); (70070, 70078);
    (70089, 70092); (70095, 70095); (70191, 70193); (70196, 70196);
    (70198, 70199); (70206, 70206); (70367, 70367); (70371, 70378);
    (70400, 70401); (70459, 70460); (70464, 70464); (70502, 70508);
    (70512, 70516); (70712, 70719); (70722, 70724); (70726, 70726);
    (70750, 70750); (70835, 70840); (70842, 70842); (70847, 70848);
    (70850, 70851); (71090, 71093); (71100, 71101); (71103, 71104);
    (71132, 71133); (71219, 71226); (71229, 71229); (71231, 71232);
    (71339, 71339); (71341, 71341); (71344, 71349); (71351, 71351);
    (71453, 71455); (71458, 71461); (71463, 71467); (71727, 71735);
    (71737, 71738); (71995, 71996); (71998, 71998); (72003, 72003);
    (72148, 72151); (72154, 72155); (72160, 72160); (72193, 72202);
    (72243, 72248); (72251, 72254); (72263, 72263); (72273, 72278);
    (72281, 72283); (72330, 72342); (72344, 72345); (72752, 72758);
    (72760, 72765); (72767, 72767); (72850, 72871); (72874, 72880);
    (72882, 72883); (72885, 72886); (73009, 73014); (73018, 73018);
    (73020, 73021); (73023, 73029); (73031, 73031); (73104, 73105);
    (73109, 73109); (73111, 73111); (73459, 73460); (78896, 78904);
    (92912, 92916); (92976, 92982); (92992, 92995); (94031, 94031);
    (94095, 94111); (94176, 94177); (94179, 94180); (110576, 110579);
    (110581, 110587); (110589, 110590); (113821, 113822); (113824, 113827);
    (118528, 118573); (118576, 118598); (119143, 119145); (119155, 119170);
    (119173, 119179); (119210, 119213); (119362, 119364); (121344, 121398);
    (121403, 121452); (121461, 121461); (121476, 121476); (121499, 121503);
    (121505, 121519); (122880, 122886); (122888, 122904); (122907, 122913);
    (122915, 122916); (122918, 122922); (123184, 123197); (123566, 123566);
    (123628, 123631); (125136, 125142); (125252, 125259); (127995, 127999);
    (917505, 917505); (917536, 917631); (917760, 917999) ]%N.

End Unicode.

(** ** Strings

    A Python [str] is the sequence of its code points, U+0000 to
    U+10FFFF, each one a number. *)
Inductive str : Type :=
  | EmptyStr
  | Str (c : N) (s : str).

Fixpoint chars (s : str) : list N :=
  match s with
  | EmptyStr => []
  | Str c s' => c :: chars s'
  end.

Fixpoint text (l : list N) : str :=
  match l with
  | [] => EmptyStr
  | c :: l' => Str c (text l')
  end.

(** [a + b] *)
Fixpoint append (a b : str) : str :=
  match a with
  | EmptyStr => b
  | Str c a' => Str c (append a' b)
  end.

(** A literal between quotes is the [str] of its characters, which are
    ASCII; a literal marked as a code point is the one character. *)
Definition str_of_bytes (l : list Byte.byte) : option str :=
  let codes := map (fun b => N.of_nat (Byte.to_nat b)) l in
  if forallb (fun c => c <? 128)%N codes then Some (text codes) else None.

Definition bytes_of_str (s : str) : option (list Byte.byte) :=
  if forallb (fun c => c <? 128)%N (chars s)
  then Some (omap (fun c => Byte.of_nat (N.to_nat c)) (chars s))
  else None.

Definition codepoint_of_bytes (l : list Byte.byte) : option N :=
  match str_of_bytes l with
  | Some (Str c EmptyStr) => Some c
  | _ => None
  end.

Definition bytes_of_codepoint (c : N) : option (list Byte.byte) :=
  bytes_of_str (Str c EmptyStr).

Declare Scope str_scope.
Delimit Scope str_scope with str.
Bind Scope str_scope with str.
String Notation str str_of_bytes bytes_of_str : str_scope.
Infix "+:+" := append (at level 60, right associativity) : str_scope.

Declare Scope codepoint_scope.
Delimit Scope codepoint_scope with cp.
String Notation N codepoint_of_bytes bytes_of_codepoint : codepoint_scope.

Local Open Scope str_scope.

#[global] Instance str_eq_dec : EqDecision str.
Proof. solve_decision. Defined.

Lemma text_chars (s : str) : text (chars s) = s.
Proof.
  induction s as [|c s IH]; [reflexivity|]. cbn [chars text]. by rewrite IH.
Qed.

(** The place of a [str] in a finite map is the place of the list of its
    code points. *)
#[global] Instance str_countable : Countable str :=
  inj_countable' chars text text_chars.

(** The [str] of a text in ASCII. *)
Definition str_of_string (s : String.string) : str :=
  text (map Ascii.N_of_ascii (String.list_ascii_of_string s)).

(** [c] lies in one of the ranges of a table. *)
Definition in_ranges (table : list (N * N)) (c : N) : bool :=
  existsb (fun r => (r.1 <=? c)%N && (c <=? r.2)%N) table.

(** [\d], and [str.isspace] *)
Definition is_decimal (c : N) : bool := in_ranges Unicode.decimal_digits c.
Definition is_space (c : N) : bool := in_ranges Unicode.white_space c.

(** The lower case of a code point other than the capital sigma: one
    code point, or two for the capital I with a dot, U+0130. *)
Definition lower_of (c : N) : list N :=
  if (c =? 304)%N then [105; 775]%N else
  match
    List.find (fun run => match run with
                          | (first, last, step, _) =>
                              (first <=? c)%N && (c <=? last)%N &&
                              ((c - first) mod step =? 0)%N
                          end) Unicode.lower_case
  with
  | Some (first, _, _, target) => [(target + (c - first))%N]
  | None => [c]
  end.

Fixpoint skip_case_ignorable (l : list N) : list N :=
  match l with
  | c :: l' =>
      if in_ranges Unicode.case_ignorable c then skip_case_ignorable l' else l
  | [] => []
  end.

(** A capital sigma is final when a cased letter comes before it and
    none comes after it, the case-ignorable code points between them
    aside.  [before] is what precedes the sigma, the nearest first. *)
Definition final_sigma (before after : list N) : bool :=
  match skip_case_ignorable before with
  | c :: _ => in_ranges Unicode.cased c
  | [] => false
  end &&
  match skip_case_ignorable after with
  | c :: _ => negb (in_ranges Unicode.cased c)
  | [] => true
  end.

Fixpoint lower_from (before l : list N) : list N :=
  match l with
  | [] => []
  | c :: l' =>
      (if (c =? 931)%N
       then [if final_sigma before l' then 962%N else 963%N]
       else lower_of c) ++ lower_from (c :: before) l'
  end.

(** [s.lower()]: every code point becomes its lower case; the capital
    sigma U+03A3 becomes U+03C2 where it is final, U+03C3 elsewhere. *)
Definition lower (s : str) : str := text (lower_from [] (chars s)).

(** [s.startswith(p)] *)
Fixpoint prefix (p s : str) : bool :=
  match p, s with
  | EmptyStr, _ => true
  | Str a p', Str b s' => (a =? b)%N && prefix p' s'
  | Str _ _, EmptyStr => false
  end.

(** [sub in s] for two strings: [sub] occurs in [s]. *)
Fixpoint str_contains (sub s : str) : bool :=
  prefix sub s ||
  match s with
  | EmptyStr => false
  | Str _ s' => str_contains sub s'
  end.

(** [s.endswith(suf)] *)
Definition endswith (suf s : str) : bool :=
  bool_decide (chars suf `suffix_of` chars s).

(** [s.split(sep)] for a one-character separator: never empty. *)
Fixpoint split_on (sep : N) (s : str) : list str :=
  match s with
  | EmptyStr => [EmptyStr]
  | Str c s' =>
      if (c =? sep)%N then EmptyStr :: split_on sep s'
      else match split_on sep s' with
           | seg :: rest => Str c seg :: rest
           | [] => [Str c EmptyStr]
           end
  end.

(** The longest run of decimal digits at the head of a list, and what
    follows. *)
Fixpoint span_digits (l : list N) : list N * list N :=
  match l with
  | c :: l' =>
      if is_decimal c then let (ds, rest) := span_digits l' in (c :: ds, rest)
      else ([], l)
  | [] => ([], [])
  end.

(** The pattern [\[\d+\]] matched backwards from the end of the reversed
    text [r]: the closing bracket, one digit or more, the opening bracket.
    The answer is what is left in front of the match, still reversed. *)
Definition match_index_rev (r : list N) : option (list N) :=
  match r with
  | c :: r1 =>
      if (c =? "]"%cp)%N then
        match span_digits r1 with
        | (_ :: _, o :: base) => if (o =? "["%cp)%N then Some base else None
        | _ => None
        end
      else None
  | [] => None
  end.

(** The line feed, U+000A. *)
Definition newline : N := 10%N.

(** [re.sub(r'\[\d+\]$', '', s)].  The pattern is anchored by [$], which
    matches at the end of the text and also in front of a final newline, so
    there is at most one match; it is cut out and the rest is kept. *)
Definition re_sub_index (s : str) : str :=
  match reverse (chars s) with
  | c :: r =>
      if (c =? newline)%N then
        match match_index_rev r with
        | Some base => text (reverse (newline :: base))
        | None => s
        end
      else
        match match_index_rev (c :: r) with
        | Some base => text (reverse base)
        | None => s
        end
  | [] => s
  end.

(** [os.path.splitext(p)[1]] with the POSIX separator: the extension starts
    at the last dot of the last path component, provided a character other
    than a dot comes before it in that component. *)
Fixpoint drop_dots (l : list N) : list N :=
  match l with
  | c :: l' => if (c =? "."%cp)%N then drop_dots l' else l
  | [] => []
  end.

Fixpoint last_dot_suffix (l : list N) : option (list N) :=
  match l with
  | [] => None
  | c :: l' =>
      match last_dot_suffix l' with
      | Some e => Some e
      | None => if (c =? "."%cp)%N then Some l else None
      end
  end.

Definition splitext_ext (p : str) : str :=
  let component := List.last (split_on "/"%cp p) EmptyStr in
  match last_dot_suffix (drop_dots (chars component)) with
  | Some e => text e
  | None => EmptyStr
  end.

(** [s.strip()] *)
Fixpoint lstrip (l : list N) : list N :=
  match l with
  | c :: l' => if is_space c then lstrip l' else l
  | [] => []
  end.

Definition strip (s : str) : str :=
  text (reverse (lstrip (reverse (lstrip (chars s))))).

(** ** Values *)

(** What [json.loads] can return.  A number with a fraction or an exponent
    is a Python [float]; nothing below looks inside one, it is kept by its
    literal. *)
Inductive json : Type :=
  | JNull
  | JBool (b : bool)
  | JInt (z : Z)
  | JFloat (literal : str)
  | JStr (s : str)
  | JList (l : list json)
  | JDict (d : gmap str json).

(** The exceptions the modelled code can raise or has to handle. *)
Inductive exn : Type :=
  | TypeError
  | AttributeError
  | KeyError
  | RuntimeError
  | JSONDecodeError
  | OtherError (message : str).

Inductive result (A : Type) : Type :=
  | Ok (a : A)
  | Raise (e : exn).
Arguments Ok {A} a.
Arguments Raise {A} e.

(** Sequencing: a raised exception ends the computation. *)
Definition bind {A B : Type} (m : result A) (k : A -> result B) : result B :=
  match m with
  | Ok a => k a
  | Raise e => Raise e
  end.

Notation "'do' x <- m ; k" := (bind m (fun x => k))
  (at level 10, x name, m at level 100, k at level 200,
   format "'[v' 'do'  x  <-  m ; '/' k ']'").

(** ** Python operators on loaded values *)

(** [key in c] *)
Definition py_contains (key : str) (c : json) : result bool :=
  match c with
  | JDict d => Ok (bool_decide (is_Some (d !! key)))
  | JStr s => Ok (str_contains key s)
  | JList l =>
      Ok (existsb (fun x => match x with
                            | JStr s => bool_decide (s = key)
                            | _ => false
                            end) l)
  | _ => Raise TypeError
  end.

(** [c[key]] with a string key *)
Definition py_getitem (c : json) (key : str) : result json :=
  match c with
  | JDict d => match d !! key with Some v => Ok v | None => Raise KeyError end
  | _ => Raise TypeError
  end.

(** [c[key] = v] with a string key *)
Definition py_setitem (c : json) (key : str) (v : json) : result json :=
  match c with
  | JDict d => Ok (JDict (<[key:=v]> d))
  | _ => Raise TypeError
  end.

(** [c.get(key, default)]: only a [dict] has the method. *)
Definition py_get (c : json) (key : str) (default : json) : result json :=
  match c with
  | JDict d => Ok (from_option id default (d !! key))
  | _ => Raise AttributeError
  end.

(** [isinstance(v, dict)] *)
Definition is_dict (v : json) : bool :=
  match v with JDict _ => true | _ => false end.

(** The values for which [isinstance(v, int)] holds: Python's [bool] is a
    subclass of [int], and [True == 1], [False == 0]. *)
Inductive py_int : Type :=
  | PyInt (z : Z)
  | PyBool (b : bool).

Definition as_int (v : json) : option py_int :=
  match v with
  | JInt z => Some (PyInt z)
  | JBool b => Some (PyBool b)
  | _ => None
  end.

Definition int_value (k : py_int) : Z :=
  match k with
  | PyInt z => z
  | PyBool b => if b then 1 else 0
  end.

(** [str(k)] *)
Definition py_str_int (k : py_int) : str :=
  match k with
  | PyInt z => str_of_string (pretty z)
  | PyBool b => if b then "True" else "False"
  end.

(** ** The normalizer ([serena_cli/main.py]) *)

(** The LSP SymbolKind table of [get_symbol_kind_name]. *)
Definition kinds : gmap Z str :=
  list_to_map
    [ (1, "File"); (2, "Module"); (3, "Namespace"); (4, "Package");
      (5, "Class"); (6, "Method"); (7, "Property"); (8, "Field");
      (9, "Constructor"); (10, "Enum"); (11, "Interface"); (12, "Function");
      (13, "Variable"); (14, "Constant"); (15, "String"); (16, "Number");
      (17, "Boolean"); (18, "Array"); (19, "Object"); (20, "Key");
      (21, "Null"); (22, "EnumMember"); (23, "Struct"); (24, "Event");
      (25, "Operator"); (26, "TypeParameter") ].

(** [kinds.get(kind_id, str(kind_id))] *)
Definition get_symbol_kind_name (kind_id : py_int) : str :=
  from_option id (py_str_int kind_id) (kinds !! int_value kind_id).
Arguments get_symbol_kind_name : simpl never.

(** Step 1: restore [name] from [name_path] when it is missing. *)
Definition restore_name (item : json) : result json :=
  do has_name <- py_contains "name" item;
  if has_name then Ok item else
  do has_name_path <- py_contains "name_path" item;
  if negb has_name_path then Ok item else
  do name_path <- py_getitem item "name_path";
  match name_path with
  | JStr name_path =>
      let last_part := List.last (split_on "/"%cp name_path) EmptyStr in
      let last_part :=
        if str_contains "[" last_part && endswith "]" last_part
        then re_sub_index last_part else last_part in
      py_setitem item "name" (JStr last_part)
  | _ => Raise AttributeError
  end.

(** Step 2: an integer [kind] becomes its lower-cased name. *)
Definition kind_to_string (item : json) : result json :=
  do has_kind <- py_contains "kind" item;
  if negb has_kind then Ok item else
  do kind <- py_getitem item "kind";
  match as_int kind with
  | Some kind_id =>
      py_setitem item "kind" (JStr (lower (get_symbol_kind_name kind_id)))
  | None => Ok item
  end.

(** [key in item and isinstance(item[key], dict)] *)
Definition holds_dict (key : str) (item : json) : result bool :=
  do present <- py_contains key item;
  if negb present then Ok false else
  do v <- py_getitem item key;
  Ok (is_dict v).

(** Step 3: the [range] entry.  The [elif] belongs to the test on
    [item["range"]]: it is reached only when [range] is missing or is not
    a [dict]. *)
Definition transform_range (item : json) : result json :=
  do range_is_dict <- holds_dict "range" item;
  if range_is_dict then
    do r <- py_getitem item "range";
    do start <- py_get r "start" (JDict ∅);
    do end_ <- py_get r "end" (JDict ∅);
    do start_has_line <- py_contains "line" start;
    do both <- (if start_has_line then py_contains "line" end_ else Ok false);
    if both then
      do start_line <- py_getitem start "line";
      do end_line <- py_getitem end_ "line";
      py_setitem item "range"
        (JDict (<["start_line":=start_line]> (<["end_line":=end_line]> ∅)))
    else Ok item
  else
    do body_is_dict <- holds_dict "body_location" item;
    if body_is_dict then
      do body_location <- py_getitem item "body_location";
      py_setitem item "range" body_location
    else Ok item.

(** Step 4: [file] is a copy of [relative_path]. *)
Definition ensure_file (item : json) : result json :=
  do has_path <- py_contains "relative_path" item;
  if negb has_path then Ok item else
  do relative_path <- py_getitem item "relative_path";
  py_setitem item "file" relative_path.

(** Step 5: guess [language] from the extension of [file].
    [os.path.splitext] raises [TypeError] on anything but a path. *)
Definition guess_language (item : json) : result json :=
  do has_language <- py_contains "language" item;
  if has_language then Ok item else
  do has_file <- py_contains "file" item;
  if negb has_file then Ok item else
  do file <- py_getitem item "file";
  match file with
  | JStr file =>
      let ext := splitext_ext file in
      if bool_decide (ext = ".py") then py_setitem item "language" (JStr "python")
      else if bool_decide (ext = ".ts") then py_setitem item "language" (JStr "typescript")
      else if bool_decide (ext = ".js") then py_setitem item "language" (JStr "javascript")
      else if bool_decide (ext = ".java") then py_setitem item "language" (JStr "java")
      else Ok item
  | _ => Raise TypeError
  end.

(** [transform_symbol_result(item)].  The source updates [item] in place
    and returns it; here the updated value is the result. *)
Definition transform_symbol_result (item : json) : result json :=
  do item <- restore_name item;
  do item <- kind_to_string item;
  do item <- transform_range item;
  do item <- ensure_file item;
  guess_language item.

(** ** The command pipeline ([main_async], after the arguments are parsed
    and the server is started) *)

Inductive output_format : Type := Text | Json.

(** The three [query] subcommands with the options each parser declares. *)
Inductive query : Type :=
  | find_symbol (name : str) (language : option str) (limit : option Z)
  | file_overview (path : str)
  | references (name path : str).

Record args : Type := { format : output_format; query_command : query }.

(** A block of a tool response: a [TextContent] or one of the other kinds. *)
Inductive content : Type :=
  | TextContent (text : str)
  | OtherContent.

Record CallToolResult : Type := { isError : bool; content_blocks : list content }.

(** What goes to the error stream. *)
Inductive diagnostic : Type :=
  | ErrorCallingTool (tool_name : str)
  | ErrorText (text : str)
  | WarningNonJson (text : str)
  | ErrorLine (e : exn).

(** What [print] writes to the standard output.  A formatted row is kept
    as the values its f-string formats, and the JSON document as the value
    that [json.dumps] renders. *)
Inductive printed : Type :=
  | Line (s : str)
  | JsonDocument (wrapper : json)
  | SymbolRow (name kind file start_line : json)
  | OverviewRow (kind name start_line : json)
  | ReferenceRow (file start_line : json)
  | CodeRow (snippet : str).

Record run : Type := {
  tool_call : str * gmap str json;
  stdout : list printed;
  stderr : list diagnostic;
  exit_code : Z
}.

(** The tool and the arguments of the one call each subcommand makes. *)
Definition tool_request (q : query) : str * gmap str json :=
  match q with
  | find_symbol name _ _ =>
      ("find_symbol", {[ "name_path_pattern" := JStr name ]})
  | file_overview path =>
      ("get_symbols_overview", {[ "relative_path" := JStr path ]})
  | references name path =>
      ("find_referencing_symbols",
       <["name_path":=JStr name]> {[ "relative_path" := JStr path ]})
  end.

(** A list comprehension whose body can raise. *)
Fixpoint map_result {A B : Type} (f : A -> result B) (l : list A)
    : result (list B) :=
  match l with
  | [] => Ok []
  | x :: l' =>
      do y <- f x;
      do ys <- map_result f l';
      Ok (y :: ys)
  end.

Fixpoint filter_result {A : Type} (f : A -> result bool) (l : list A)
    : result (list A) :=
  match l with
  | [] => Ok []
  | x :: l' =>
      do keep <- f x;
      do ys <- filter_result f l';
      Ok (if keep then x :: ys else ys)
  end.

(** [item.get("language", "").lower() == target_lang] *)
Definition language_is (target_lang : str) (item : json) : result bool :=
  do language <- py_get item "language" (JStr "");
  match language with
  | JStr s => Ok (bool_decide (lower s = target_lang))
  | _ => Raise AttributeError
  end.

(** The language filter: only for [find-symbol], and only when
    [args.language] is true, that is, given and not empty. *)
Definition filter_language (q : query) (output_data : list json)
    : result (list json) :=
  match q with
  | find_symbol _ (Some language) _ =>
      if bool_decide (language = "") then Ok output_data
      else filter_result (language_is (lower language)) output_data
  | _ => Ok output_data
  end.

(** [l[:n]] *)
Definition py_slice_to {A : Type} (n : Z) (l : list A) : list A :=
  take (Z.to_nat (if n <? 0 then Z.of_nat (length l) + n else n)) l.

(** The limit: only for [find-symbol], and only when [args.limit] is true,
    that is, given and not zero. *)
Definition limit_results (q : query) (output_data : list json) : list json :=
  match q with
  | find_symbol _ _ (Some limit) =>
      if limit =? 0 then output_data else py_slice_to limit output_data
  | _ => output_data
  end.

(** A value that [format] accepts with the spec [<30]: [None], lists and
    dicts raise [TypeError]. *)
Definition accepts_format_spec (v : json) : bool :=
  match v with
  | JStr _ | JInt _ | JBool _ | JFloat _ => true
  | _ => false
  end.

Definition find_symbol_row (item : json) : result (list printed) :=
  do name <- py_get item "name" (JStr "?");
  do kind <- py_get item "kind" (JStr "?");
  do file <- py_get item "file" (JStr "?");
  do range <- py_get item "range" (JDict ∅);
  do start_line <- py_get range "start_line" (JStr "?");
  if accepts_format_spec name && accepts_format_spec kind
  then Ok [SymbolRow name kind file start_line]
  else Raise TypeError.

Definition file_overview_row (item : json) : result (list printed) :=
  do name <- py_get item "name" (JStr "?");
  do kind <- py_get item "kind" (JStr "?");
  do range <- py_get item "range" (JDict ∅);
  do start_line <- py_get range "start_line" (JStr "?");
  if accepts_format_spec kind && accepts_format_spec name
  then Ok [OverviewRow kind name start_line]
  else Raise TypeError.

Definition references_row (item : json) : result (list printed) :=
  do file <- py_get item "file" (JStr "?");
  do range <- py_get item "range" (JDict ∅);
  do start_line <- py_get range "start_line" (JStr "?");
  do around <- py_get item "content_around_reference" (JStr "");
  match around with
  | JStr around =>
      let snippet := strip around in
      Ok (ReferenceRow file start_line ::
          if bool_decide (snippet = "") then [] else [CodeRow snippet])
  | _ => Raise AttributeError
  end.

(** The [for item in output_data] loop of the text mode: rows are printed
    one by one, and what was printed stays printed when a later row raises. *)
Fixpoint print_rows (row : json -> result (list printed)) (items : list json)
    : list printed * option exn :=
  match items with
  | [] => ([], None)
  | item :: rest =>
      match row item with
      | Raise e => ([], Some e)
      | Ok lines =>
          let (out, raised) := print_rows row rest in (lines ++ out, raised)
      end
  end.

Definition is_empty {A : Type} (l : list A) : bool :=
  match l with [] => true | _ => false end.

(** The output stage. *)
Definition print_output (a : args) (output_data : list json)
    : list printed * option exn :=
  match format a with
  | Json => ([JsonDocument (JDict {[ "results" := JList output_data ]})], None)
  | Text =>
      let (empty_line, row) :=
        match query_command a with
        | find_symbol _ _ _ => ("No symbols found.", find_symbol_row)
        | file_overview _ => ("No symbols found in file.", file_overview_row)
        | references _ _ => ("No references found.", references_row)
        end in
      let (out, raised) := print_rows row output_data in
      ((if is_empty output_data then [Line empty_line] else []) ++ out, raised)
  end.

Section MainAsync.

(** [json.loads]: the loaded value, or the exception it raises.  A text
    that is not valid JSON is rejected with [JSONDecodeError]; but a text
    nested deeper than the interpreter recurses ends in [RecursionError],
    valid or not, and an integer literal beyond the limit of digits in
    [ValueError]. *)
Variable json_loads : str -> result json.

(** The loop over [result.content]: lists are spliced in, objects are
    appended, other values are dropped, and a text rejected with
    [JSONDecodeError] leaves a warning and nothing else.  No other
    exception of [json.loads] is handled here: it leaves the loop, the
    warnings written so far stay written. *)
Fixpoint parse_content (blocks : list content)
    : result (list json) * list diagnostic :=
  match blocks with
  | [] => (Ok [], [])
  | TextContent t :: rest =>
      match json_loads t with
      | Ok data =>
          let (output_data, warnings) := parse_content rest in
          ((do output_data <- output_data;
            Ok match data with
               | JList data => data ++ output_data
               | JDict _ => data :: output_data
               | _ => output_data
               end),
           warnings)
      | Raise JSONDecodeError =>
          let (output_data, warnings) := parse_content rest in
          (output_data, WarningNonJson t :: warnings)
      | Raise e => (Raise e, [])
      end
  | OtherContent :: rest => parse_content rest
  end.

(** Normalization, then the language filter, then the limit. *)
Definition results (q : query) (parsed : list json) : result (list json) :=
  do output_data <- map_result transform_symbol_result parsed;
  do output_data <- filter_language q output_data;
  Ok (limit_results q output_data).

(** [main_async] from the tool call on.  [sys.exit(1)] and the handler of
    the enclosing [try] both end the process with status 1. *)
Definition main_async
    (call_tool : str -> gmap str json -> result CallToolResult)
    (a : args) : run :=
  let request := tool_request (query_command a) in
  match call_tool request.1 request.2 with
  | Raise e =>
      {| tool_call := request; stdout := []; stderr := [ErrorLine e];
         exit_code := 1 |}
  | Ok response =>
      if isError response then
        {| tool_call := request; stdout := [];
           stderr := ErrorCallingTool request.1 ::
                     omap (fun c => match c with
                                    | TextContent t => Some (ErrorText t)
                                    | OtherContent => None
                                    end) (content_blocks response);
           exit_code := 1 |}
      else
        let (parsed, warnings) := parse_content (content_blocks response) in
        match (do parsed <- parsed; results (query_command a) parsed) with
        | Raise e =>
            {| tool_call := request; stdout := [];
               stderr := warnings ++ [ErrorLine e]; exit_code := 1 |}
        | Ok output_data =>
            match print_output a output_data with
            | (out, Some e) =>
                {| tool_call := request; stdout := out;
                   stderr := warnings ++ [ErrorLine e]; exit_code := 1 |}
            | (out, None) =>
                {| tool_call := request; stdout := out;
                   stderr := warnings; exit_code := 0 |}
            end
        end
  end.

End MainAsync.

(** ** The native client ([serena_native/serena_client.py]) *)

Section SerenaClient.

(** [SerenaAgent] and the project objects are those of the Serena
    library; the client only holds an agent and asks it for a project. *)
Variables Agent Project : Type.

(** What the client finds around it: whether [serena] could be imported,
    what [SerenaAgent(project=None)] does, and what
    [agent.serena_config.get_project(root)] does: it raises, or it returns
    a project, or it returns a value that is false ([None]). *)
Record environment : Type := {
  SERENA_AVAILABLE : bool;
  new_agent : result Agent;
  get_project : Agent -> str -> result (option Project)
}.

Record SerenaClient : Type := {
  project_root : str;
  agent : option Agent
}.

(** A method of the client: it can raise, and what it did to [self]
    before raising stays done. *)
Definition method (A : Type) : Type :=
  SerenaClient -> result A * SerenaClient.

Definition returning {A : Type} (a : A) : method A := fun self => (Ok a, self).
Definition raising {A : Type} (e : exn) : method A := fun self => (Raise e, self).

Definition and_then {A B : Type} (m : method A) (k : A -> method B) : method B :=
  fun self =>
    match m self with
    | (Ok a, self') => k a self'
    | (Raise e, self') => (Raise e, self')
    end.

(** [try: body / except Exception: handler] *)
Definition try_except {A : Type} (body : method A) (handler : exn -> method A)
    : method A :=
  fun self =>
    match body self with
    | (Ok a, self') => (Ok a, self')
    | (Raise e, self') => handler e self'
    end.

(** A call into the library, which does not touch [self]. *)
Definition call {A : Type} (r : result A) : method A := fun self => (r, self).

(** [self.agent = a] *)
Definition set_agent (a : Agent) : method unit :=
  fun self => (Ok tt, {| project_root := project_root self; agent := Some a |}).

Definition ensure_agent (env : environment) : method unit :=
  fun self =>
    if negb (SERENA_AVAILABLE env) then raising RuntimeError self else
    match agent self with
    | Some _ => returning tt self
    | None =>
        and_then
          (try_except (call (new_agent env)) (fun _ => raising RuntimeError))
          set_agent self
    end.

Definition get_status (env : environment) : method (gmap str json) :=
  let status : gmap str json :=
    <["serena_available":=JBool (SERENA_AVAILABLE env)]>
    (<["project_detected":=JBool false]>
    (<["index_state":=JStr "unknown"]> ∅)) in
  if SERENA_AVAILABLE env then
    try_except
      (and_then (ensure_agent env) (fun _ self =>
         match agent self with
         | None => raising AttributeError self
         | Some a =>
             and_then (call (get_project env a (project_root self)))
               (fun project =>
                  match project with
                  | Some _ =>
                      returning
                        (<["index_state":=JStr "configured"]>
                         (<["project_detected":=JBool true]> status))
                  | None => returning status
                  end) self
         end))
      (fun _ => returning status)
  else returning status.

End SerenaClient.

Arguments SERENA_AVAILABLE {Agent Project} e.
Arguments new_agent {Agent Project} e.
Arguments get_project {Agent Project} e _ _.
Arguments project_root {Agent} s.
Arguments agent {Agent} s.
Arguments ensure_agent {Agent Project} env self.
Arguments get_status {Agent Project} env self.

(** * The vocabulary of the properties *)

(** ** Names *)

(** The last segment of a path: the text after the last separator. *)
Definition last_segment_of (sep : N) (p seg : str) : Prop :=
  (sep ∉ chars seg) /\
  exists pre, p = pre +:+ seg /\
              (pre = EmptyStr \/ exists q, pre = q +:+ Str sep EmptyStr).

(** A text that ends with an index: a base, then a bracketed run of
    decimal digits, those that [\d] matches. *)
Definition digits_only (ds : str) : Prop :=
  ds <> EmptyStr /\ Forall (fun c => is_decimal c = true) (chars ds).

Definition index_suffix (seg base : str) : Prop :=
  exists ds, digits_only ds /\ seg = base +:+ "[" +:+ ds +:+ "]".

(** The name that belongs to a path: its last segment, without the index
    when the segment ends with one. *)
Definition name_of_path (p name : str) : Prop :=
  exists seg,
    last_segment_of "/"%cp p seg /\
    (index_suffix seg name \/ (name = seg /\ forall base, ~ index_suffix seg base)).

(** ** The steps of the normalizer *)

(** The name step 1 gives to a symbol whose path is [name_path]. *)
Definition derived_name (name_path : str) : str :=
  let last_part := List.last (split_on "/"%cp name_path) EmptyStr in
  if str_contains "[" last_part && endswith "]" last_part
  then re_sub_index last_part else last_part.

(** The two-line range built from [range.start.line] and [range.end.line];
    [None] when a line is missing. *)
Definition line_range (r : gmap str json) : result (option json) :=
  let start := from_option id (JDict ∅) (r !! "start") in
  let end_ := from_option id (JDict ∅) (r !! "end") in
  do start_has_line <- py_contains "line" start;
  do both <- (if start_has_line then py_contains "line" end_ else Ok false);
  if both then
    do start_line <- py_getitem start "line";
    do end_line <- py_getitem end_ "line";
    Ok (Some (JDict (<["start_line":=start_line]> (<["end_line":=end_line]> ∅))))
  else Ok None.

(** The four-entry extension table of step 5. *)
Definition language_of_file (file : str) : option str :=
  let ext := splitext_ext file in
  if bool_decide (ext = ".py") then Some "python"
  else if bool_decide (ext = ".ts") then Some "typescript"
  else if bool_decide (ext = ".js") then Some "javascript"
  else if bool_decide (ext = ".java") then Some "java"
  else None.

(** A step that succeeds on a record returns a record, and changes no
    entry but the one of its own key. *)
Definition writes_only (key : str) (step : json -> result json) : Prop :=
  forall d out, step (JDict d) = Ok out ->
    exists d', out = JDict d' /\ forall k, k <> key -> d' !! k = d !! k.

(** A successful run of the normalizer on a record, step by step. *)
Record normalization (d d1 d2 d3 d4 d5 : gmap str json) : Prop := {
  step_name : restore_name (JDict d) = Ok (JDict d1);
  step_kind : kind_to_string (JDict d1) = Ok (JDict d2);
  step_range : transform_range (JDict d2) = Ok (JDict d3);
  step_file : ensure_file (JDict d3) = Ok (JDict d4);
  step_language : guess_language (JDict d4) = Ok (JDict d5);
  keep_name : forall k, k <> "name" -> d1 !! k = d !! k;
  keep_kind : forall k, k <> "kind" -> d2 !! k = d1 !! k;
  keep_range : forall k, k <> "range" -> d3 !! k = d2 !! k;
  keep_file : forall k, k <> "file" -> d4 !! k = d3 !! k;
  keep_language : forall k, k <> "language" -> d5 !! k = d4 !! k
}.

(** The entries the normalizer reads have the types it expects: a string
    as [name_path] when the name is to be derived, mappings as
    [range.start] and [range.end], and a string as the file whose extension
    is looked at. *)
Definition well_typed (d : gmap str json) : Prop :=
  (d !! "name" = None ->
     forall v, d !! "name_path" = Some v -> exists p, v = JStr p) /\
  (forall r v, d !! "range" = Some (JDict r) ->
     r !! "start" = Some v \/ r !! "end" = Some v -> is_dict v = true) /\
  (d !! "language" = None ->
     forall v, from_option Some (d !! "file") (d !! "relative_path") = Some v ->
       exists file, v = JStr file).

(** ** Kinds and ranges *)

(** The twenty-six symbol kinds, in the order of their codes 1 to 26. *)
Definition symbol_kinds : list str :=
  [ "File"; "Module"; "Namespace"; "Package"; "Class"; "Method"; "Property";
    "Field"; "Constructor"; "Enum"; "Interface"; "Function"; "Variable";
    "Constant"; "String"; "Number"; "Boolean"; "Array"; "Object"; "Key";
    "Null"; "EnumMember"; "Struct"; "Event"; "Operator"; "TypeParameter" ].

(** The canonical range. *)
Definition lines (start_line end_line : json) : json :=
  JDict (<["start_line":=start_line]> (<["end_line":=end_line]> ∅)).

(** [range.start.line] and [range.end.line] both exist. *)
Definition has_line_pair (r : gmap str json) (start_line end_line : json) : Prop :=
  exists start end_,
    r !! "start" = Some (JDict start) /\ start !! "line" = Some start_line /\
    r !! "end" = Some (JDict end_) /\ end_ !! "line" = Some end_line.

(** Step 3 comes to rest: either [range] is a mapping already, or it is not
    going to be taken from a [body_location] that itself holds the two
    lines the step looks for. *)
Definition range_settles (d : gmap str json) : Prop :=
  match d !! "range", d !! "body_location" with
  | Some (JDict _), _ => True
  | _, Some (JDict b) => line_range b = Ok None
  | _, _ => True
  end.

(** ** The command pipeline *)

(** The session that answers every call with the given blocks. *)
Definition answering (blocks : list content)
    : str -> gmap str json -> result CallToolResult :=
  fun _ _ => Ok {| isError := false; content_blocks := blocks |}.

(** The record has a [language] that is [L], letter case aside. *)
Definition has_language (L : str) (item : json) : bool :=
  match item with
  | JDict d =>
      match d !! "language" with
      | Some (JStr s) => bool_decide (lower s = lower L)
      | _ => false
      end
  | _ => false
  end.

(** A record whose [language], when it has one, is a string. *)
Definition language_is_text (item : json) : Prop :=
  exists d, item = JDict d /\
    match d !! "language" with
    | Some v => exists s, v = JStr s
    | None => True
    end.

(** ** The native client *)

(** The agent the client ends up with, if any. *)
Definition agent_obtained {Agent Project : Type}
    (env : environment Agent Project) (self : SerenaClient Agent)
    : option Agent :=
  if SERENA_AVAILABLE env then
    match agent self with
    | Some a => Some a
    | None => match new_agent env with Ok a => Some a | Raise _ => None end
    end
  else None.

(** The agent is there and it knows a project for the root. *)
Definition project_obtained {Agent Project : Type}
    (env : environment Agent Project) (self : SerenaClient Agent) : bool :=
  match agent_obtained env self with
  | Some a =>
      match get_project env a (project_root self) with
      | Ok (Some _) => true
      | _ => false
      end
  | None => false
  end.

(** ** Sample data *)

(** The record of [tests/test_main.py]. *)
Definition test_item : gmap str json :=
  <["name_path":=JStr "MyClass/my_method[0]"]>
  (<["kind":=JInt 6]>
  (<["body_location":=JDict (<["start_line":=JInt 10]> (<["end_line":=JInt 20]> ∅))]>
  (<["relative_path":=JStr "src/foo.py"]> ∅))).

(** The record of the test suite, normalized. *)
Definition test_item_normalized : gmap str json :=
  <["name":=JStr "my_method"]>
  (<["kind":=JStr "method"]>
  (<["range":=JDict (<["start_line":=JInt 10]> (<["end_line":=JInt 20]> ∅))]>
  (<["file":=JStr "src/foo.py"]>
  (<["language":=JStr "python"]>
  (<["name_path":=JStr "MyClass/my_method[0]"]>
  (<["body_location":=JDict (<["start_line":=JInt 10]> (<["end_line":=JInt 20]> ∅))]>
  (<["relative_path":=JStr "src/foo.py"]> ∅))))))).

(** A record whose only location is a [selection_range]. *)
Definition selection_item : gmap str json :=
  <["name":=JStr "f"]>
  {[ "selection_range" :=
       JDict {[ "start" := JDict {[ "line" := JInt 7 ]} ]} ]}.

(** The two records of the language-filter test. *)
Definition foo_item : gmap str json :=
  <["name_path":=JStr "foo"]> (<["kind":=JInt 6]>
    {[ "relative_path" := JStr "src/foo.py" ]}).

Definition bar_item : gmap str json :=
  <["name_path":=JStr "bar"]> (<["kind":=JInt 6]>
    {[ "relative_path" := JStr "src/bar.ts" ]}).

Definition foo_normalized : gmap str json :=
  <["name":=JStr "foo"]> (<["kind":=JStr "method"]>
    (<["file":=JStr "src/foo.py"]> (<["language":=JStr "python"]>
      (<["name_path":=JStr "foo"]> {[ "relative_path" := JStr "src/foo.py" ]})))).

Definition bar_normalized : gmap str json :=
  <["name":=JStr "bar"]> (<["kind":=JStr "method"]>
    (<["file":=JStr "src/bar.ts"]> (<["language":=JStr "typescript"]>
      (<["name_path":=JStr "bar"]> {[ "relative_path" := JStr "src/bar.ts" ]})))).

(** An opening bracket, [depth] times: a text that is not valid JSON. *)
Definition nested (depth : nat) : str := text (replicate depth "["%cp).

(** A loader that knows two texts, recurses a thousand times at most, and
    rejects every other text. *)
Definition sample_loads (t : str) : result json :=
  if bool_decide (t = "two records")
  then Ok (JList [JDict foo_item; JDict bar_item])
  else if bool_decide (t = "nothing") then Ok (JList [])
  else if bool_decide (t = nested 1000) then Raise (OtherError "RecursionError")
  else Raise JSONDecodeError.

(** ** Files and extensions *)

(** The file the language is guessed from: [relative_path] when the record
    has one, its own [file] otherwise. *)
Definition effective_file (d : gmap str json) : option json :=
  from_option Some (d !! "file") (d !! "relative_path").

(** The languages of the four known extensions, the dot aside. *)
Definition language_of_extension (e : str) : option str :=
  if bool_decide (e = "py") then Some "python"
  else if bool_decide (e = "ts") then Some "typescript"
  else if bool_decide (e = "js") then Some "javascript"
  else if bool_decide (e = "java") then Some "java"
  else None.

(** A directory prefix: nothing, or a text that ends with a slash. *)
Definition is_directory_prefix (dir : str) : Prop :=
  dir = EmptyStr \/ exists q, dir = q +:+ "/".

(** The five entries the normalizer writes. *)
Definition written_keys : list str :=
  ["name"; "kind"; "range"; "file"; "language"].

(** ** Blocks, diagnostics and rows *)


(** The row the text mode prints for a record: one call of [print]. *)
Definition text_row (q : query) (item : json) : result (list printed) :=
  match q with
  | find_symbol _ _ _ => find_symbol_row item
  | file_overview _ => file_overview_row item
  | references _ _ => references_row item
  end.

(** The commands whose text mode prints one row for each record. *)
Definition one_row_per_record (q : query) : bool :=
  match q with
  | find_symbol _ _ _ | file_overview _ => true
  | references _ _ => false
  end.

(** * The server command ([main_async], before the session) *)

Definition DEFAULT_SERVER_COMMAND : str :=
  "uvx --from git+https://github.com/oraios/serena serena start-mcp-server".

(** [s.split()]: the words between runs of white space.  [word] holds the
    characters of the word being read, last first. *)
Fixpoint split_words (l : list N) (word : list N) : list str :=
  match l with
  | [] => match word with [] => [] | _ => [text (reverse word)] end
  | c :: l' =>
      if is_space c then
        match word with
        | [] => split_words l' []
        | _ => text (reverse word) :: split_words l' []
        end
      else split_words l' (c :: word)
  end.

Definition py_split (s : str) : list str := split_words (chars s) [].

(** [if flag not in cmd_args: cmd_args.extend([flag, value])] *)
Definition extend_unless_given (flag value : str) (cmd_args : list str)
    : list str :=
  if bool_decide (flag ∈ cmd_args) then cmd_args else cmd_args ++ [flag; value].

(** The three flags the client adds for a headless run. *)
Definition default_flags (cmd_args : list str) : list str :=
  extend_unless_given "--enable-gui-log-window" "False"
    (extend_unless_given "--enable-web-dashboard" "False"
       (extend_unless_given "--project" "." cmd_args)).

(** How the start goes: the server parameters, or the message that the
    command is not on the path followed by [sys.exit(1)]. *)
Inductive launch : Type :=
  | StdioServerParameters (command : str) (args : list str)
  | CommandNotFound (cmd : str).

(** [environ] is the value of [SERENA_SERVER_COMMAND] when it is set, and
    [which] tells whether [shutil.which] finds a command.  [parts[0]] raises
    [IndexError] on an empty list. *)
Definition server_parameters (which : str -> bool) (environ : option str)
    : result launch :=
  let server_cmd_str := from_option id DEFAULT_SERVER_COMMAND environ in
  match py_split server_cmd_str with
  | [] => Raise (OtherError "IndexError")
  | cmd :: cmd_args =>
      if negb (which cmd) then Ok (CommandNotFound cmd)
      else Ok (StdioServerParameters cmd (default_flags cmd_args))
  end.

(** A word: not empty, and without white space. *)
Definition is_word (w : str) : Prop :=
  w <> EmptyStr /\ Forall (fun c => is_space c = false) (chars w).

(** A text without any word: empty, or white space only. *)
Definition is_blank (s : str) : Prop :=
  Forall (fun c => is_space c = true) (chars s).

(** * The other methods of the native client, and its command line
    ([serena_native/serena_client.py], [serena_native/cli.py]) *)

Module Native.

Section NativeWrapper.

Variables Agent Project : Type.

(** [json.loads], as for the MCP client. *)
Variable json_loads : str -> result json.

(** What the Serena library does when the client calls it.  Each method
    of the client makes each of these calls once at most, so the outcome of
    the call is all that matters: it raises, or it returns.  [None] is a
    returned value that is false. *)
Record library : Type := {
  activate_project_from_path_or_name : Agent -> str -> result (Project * bool);
  load_project_from_path_or_name : Agent -> str -> result (option Project);
  reset_language_server_manager : Agent -> result unit;
  project_name : Project -> str;
  project_root_of : Project -> str;
  (** [agent.get_tool(FindSymbolTool).apply(name_path_pattern=name)] *)
  find_symbol_tool : Agent -> str -> result str;
  (** [agent.get_tool(GetSymbolsOverviewTool)] *)
  get_symbols_overview_tool : Agent -> result unit;
  (** [agent.get_tool(FindReferencingSymbolsTool)] *)
  find_referencing_symbols_tool : Agent -> result unit
}.

(** [self.agent.f(self.project_root)]; an attribute of [None] is an
    [AttributeError]. *)
Definition with_agent {A : Type} (f : Agent -> str -> result A)
    : method Agent A :=
  fun self =>
    match agent self with
    | Some a => (f a (project_root self), self)
    | None => (Raise AttributeError, self)
    end.

(** The mapping [init_project] returns. *)
Definition init_result (lib : library) (project : Project) (created : bool)
    : gmap str json :=
  <["status":=JStr "ok"]>
  (<["project_name":=JStr (project_name lib project)]>
  (<["project_root":=JStr (project_root_of lib project)]>
  (<["created":=JBool created]> ∅))).

Definition init_project (env : environment Agent Project) (lib : library)
    : method Agent (gmap str json) :=
  and_then Agent (ensure_agent env) (fun _ =>
  try_except Agent
    (and_then Agent (with_agent (activate_project_from_path_or_name lib))
       (fun activated =>
          returning Agent (init_result lib activated.1 activated.2)))
    (fun _ =>
       and_then Agent
         (try_except Agent
            (with_agent (load_project_from_path_or_name lib))
            (fun _ => returning Agent None))
         (fun project =>
            match project with
            | Some project => returning Agent (init_result lib project false)
            | None => raising Agent RuntimeError
            end))).

Definition index_project (env : environment Agent Project) (lib : library)
    : method Agent (gmap str json) :=
  and_then Agent (ensure_agent env) (fun _ =>
  try_except Agent
    (and_then Agent (with_agent (activate_project_from_path_or_name lib))
       (fun activated =>
        and_then Agent
          (with_agent (fun a _ => reset_language_server_manager lib a))
          (fun _ =>
             returning Agent
               (<["status":=JStr "indexing_triggered"]>
                {[ "project" := JStr (project_name lib activated.1) ]}))))
    (fun _ => raising Agent RuntimeError)).

(** The one record returned for an answer that is not JSON. *)
Definition parse_failure (raw : str) : json :=
  JList [JDict (<["error":=JStr "Failed to parse JSON response"]>
                {[ "raw" := JStr raw ]})].

(** [find_symbol(name, language)]: the [language] is not used, and of
    the exceptions of [json.loads] only [JSONDecodeError] is handled. *)
Definition find_symbol (env : environment Agent Project) (lib : library)
    (name : str) (language : option str) : method Agent json :=
  and_then Agent (ensure_agent env) (fun _ =>
  and_then Agent (with_agent (activate_project_from_path_or_name lib)) (fun _ =>
  and_then Agent (with_agent (fun a _ => find_symbol_tool lib a name))
    (fun result_json =>
       match json_loads result_json with
       | Ok loaded => returning Agent loaded
       | Raise JSONDecodeError => returning Agent (parse_failure result_json)
       | Raise e => raising Agent e
       end))).

(** [os.path.relpath]: the module does not import [os], the name is not
    defined when the line is reached. *)
Definition NameError : exn := OtherError "NameError: name 'os' is not defined".

Definition file_overview (env : environment Agent Project) (lib : library)
    (path : str) : method Agent json :=
  and_then Agent (ensure_agent env) (fun _ =>
  and_then Agent (with_agent (activate_project_from_path_or_name lib)) (fun _ =>
  and_then Agent (with_agent (fun a _ => get_symbols_overview_tool lib a))
    (fun _ => raising Agent NameError))).

Definition find_references (env : environment Agent Project) (lib : library)
    (name path : str) : method Agent json :=
  and_then Agent (ensure_agent env) (fun _ =>
  and_then Agent (with_agent (activate_project_from_path_or_name lib)) (fun _ =>
  and_then Agent (with_agent (fun a _ => find_referencing_symbols_tool lib a))
    (fun _ => raising Agent NameError))).

(** ** The command line *)

(** The commands of [serena-native], a subcommand given. *)
Inductive native_command : Type :=
  | project_init
  | project_index
  | project_status
  | query_find_symbol (name : str) (language : option str)
  | query_file_overview (path : str)
  | query_references (name path : str).

(** What [print] writes: a line is kept as the values its f-string
    formats, a document as the value [json.dumps] renders. *)
Inductive native_printed : Type :=
  | Document (v : json)
  | ErrorDocument (e : exn)
  | Labelled (label : str) (v : json)
  | SymbolLine (name kind path : json)
  | ErrorItemLine (v : json)
  | Plain (v : json).

(** What [log_error] writes to the error stream. *)
Inductive native_log : Type :=
  | NotInstalled
  | Failure (e : exn).

Record native_run : Type := {
  native_stdout : list native_printed;
  native_stderr : list native_log;
  native_exit : Z
}.

(** [result.get(key)]: [None] when the key is missing. *)
Definition get_or_None (result : gmap str json) (key : str) : json :=
  from_option id JNull (result !! key).

(** One item of a query result, in text mode. *)
Definition print_item (item : json) : result native_printed :=
  do has_name <- py_contains "name" item;
  if has_name then
    do file <- py_get item "file" (JStr "unknown");
    do path <- py_get item "relative_path" file;
    do name <- py_getitem item "name";
    do kind <- py_get item "kind" (JStr "unknown");
    Ok (SymbolLine name kind path)
  else
    do has_error <- py_contains "error" item;
    if has_error then
      do error <- py_getitem item "error";
      Ok (ErrorItemLine error)
    else Ok (Plain item).

Fixpoint print_items (items : list json) : list native_printed * option exn :=
  match items with
  | [] => ([], None)
  | item :: rest =>
      match print_item item with
      | Raise e => ([], Some e)
      | Ok line =>
          let (out, raised) := print_items rest in (line :: out, raised)
      end
  end.

(** [print_text_output] for the [project] commands, whose result is a
    mapping. *)
Definition print_project_text (status_command : bool)
    (result : gmap str json) : list native_printed :=
  if status_command then
    [ Labelled "Serena Available" (get_or_None result "serena_available");
      Labelled "Project Detected" (get_or_None result "project_detected");
      Labelled "Index State" (get_or_None result "index_state") ]
  else
    Labelled "Status" (get_or_None result "status") ::
    match result !! "project_name" with
    | Some name => [Labelled "Project" name]
    | None => []
    end.

(** [print_text_output] for the [query] commands. *)
Definition print_query_text (result : json) : list native_printed * option exn :=
  match result with
  | JList items => print_items items
  | _ => ([Plain result], None)
  end.

(** The method a command calls, and whether it is [project status]. *)
Definition dispatch (env : environment Agent Project) (lib : library)
    (c : native_command) : method Agent json :=
  match c with
  | project_init => and_then Agent (init_project env lib) (fun m => returning Agent (JDict m))
  | project_index => and_then Agent (index_project env lib) (fun m => returning Agent (JDict m))
  | project_status =>
      and_then Agent (get_status env) (fun m => returning Agent (JDict m))
  | query_find_symbol name language => find_symbol env lib name language
  | query_file_overview path => file_overview env lib path
  | query_references name path => find_references env lib name path
  end.

(** The text output of a result. *)
Definition print_text_output (c : native_command) (result : json)
    : list native_printed * option exn :=
  match c with
  | project_init | project_index | project_status =>
      match result with
      | JDict m =>
          (print_project_text
             (match c with project_status => true | _ => false end) m,
           None)
      | _ => ([], Some AttributeError)
      end
  | _ => print_query_text result
  end.

(** [main] from the creation of the client on: the client is created
    without an agent, which logs an error when Serena is missing; the
    command runs; its result is printed, or its exception is reported and
    the status is 1. *)
Definition main (env : environment Agent Project) (lib : library)
    (fmt : output_format) (root : str) (c : native_command) : native_run :=
  let client := {| project_root := root; agent := None |} in
  let logged := if SERENA_AVAILABLE env then [] else [NotInstalled] in
  let failed (out : list native_printed) (e : exn) :=
    match fmt with
    | Json => {| native_stdout := out ++ [ErrorDocument e];
                 native_stderr := logged; native_exit := 1 |}
    | Text => {| native_stdout := out;
                 native_stderr := logged ++ [Failure e]; native_exit := 1 |}
    end in
  match (dispatch env lib c client).1 with
  | Raise e => failed [] e
  | Ok result =>
      match fmt with
      | Json => {| native_stdout := [Document result];
                   native_stderr := logged; native_exit := 0 |}
      | Text =>
          match print_text_output c result with
          | (out, Some e) => failed out e
          | (out, None) => {| native_stdout := out;
                              native_stderr := logged; native_exit := 0 |}
          end
      end
  end.

End NativeWrapper.

Arguments with_agent {Agent A} f self.
Arguments init_project {Agent Project} env lib self.
Arguments index_project {Agent Project} env lib self.
Arguments find_symbol {Agent Project} json_loads env lib name language self.
Arguments file_overview {Agent Project} env lib path self.
Arguments find_references {Agent Project} env lib name path self.
Arguments dispatch {Agent Project} json_loads env lib c self.
Arguments main {Agent Project} json_loads env lib fmt root c.
Arguments init_result {Agent Project} lib project created.

End Native.

(** ** The command line of the native client *)

(** The mapping [get_status] builds for a library that is available or
    not and a project that was detected or not. *)
Definition status_of (available detected : bool) : gmap str json :=
  let status : gmap str json :=
    <["serena_available":=JBool available]>
    (<["project_detected":=JBool false]>
    (<["index_state":=JStr "unknown"]> ∅)) in
  if detected
  then <["index_state":=JStr "configured"]>
       (<["project_detected":=JBool true]> status)
  else status.


(** A run that failed with [e]: the status is 1; the JSON mode prints the
    error as a document, the text mode logs it. *)
Definition failed_with (fmt : output_format) (available : bool) (e : exn)
    : Native.native_run :=
  let logged := if available then [] else [Native.NotInstalled] in
  match fmt with
  | Json => {| Native.native_stdout := [Native.ErrorDocument e];
               Native.native_stderr := logged;
               Native.native_exit := 1 |}
  | Text => {| Native.native_stdout := [];
               Native.native_stderr := logged ++ [Native.Failure e];
               Native.native_exit := 1 |}
  end.

(** An environment and a library to run the commands in: agents are
    units, a project is its root, every call returns, and the tool for
    symbols answers [answer]. *)
Definition sample_environment (available : bool) : environment unit str :=
  {| SERENA_AVAILABLE := available;
     new_agent := Ok tt;
     get_project := fun _ root => Ok (Some root) |}.

Definition sample_library (answer : str) : Native.library unit str :=
  {| Native.activate_project_from_path_or_name := fun _ root => Ok (root, false);
     Native.load_project_from_path_or_name := fun _ root => Ok (Some root);
     Native.reset_language_server_manager := fun _ => Ok tt;
     Native.project_name := fun p => p;
     Native.project_root_of := fun p => p;
     Native.find_symbol_tool := fun _ _ => Ok answer;
     Native.get_symbols_overview_tool := fun _ => Ok tt;
     Native.find_referencing_symbols_tool := fun _ => Ok tt |}.

(** * Properties *)

(** ** Text *)

Lemma chars_app (a b : str) : chars (a +:+ b) = chars a ++ chars b.
Proof.
  induction a as [|c a IH]; [reflexivity|].
  cbn [append chars app]. by rewrite IH.
Qed.

Lemma chars_text (l : list N) : chars (text l) = l.
Proof. induction l as [|c l IH]; [reflexivity|]. cbn [chars text]. by rewrite IH. Qed.

Lemma chars_inj (a b : str) : chars a = chars b -> a = b.
Proof. intros H. by rewrite <- (text_chars a), <- (text_chars b), H. Qed.

Lemma app_assoc_string (a b c : str) : (a +:+ b) +:+ c = a +:+ (b +:+ c).
Proof. apply chars_inj. by rewrite !chars_app, app_assoc. Qed.

(** What [split_on] returns: a first segment without the separator, and,
    when there are more, the text ends with the separator and the last one. *)
Lemma split_on_spec (sep : N) (s : str) :
  exists seg0 rest,
    split_on sep s = seg0 :: rest /\
    (sep ∉ chars seg0) /\
    match rest with
    | [] => s = seg0
    | _ => exists pre,
             s = pre +:+ Str sep (List.last rest EmptyStr) /\
             (sep ∉ chars (List.last rest EmptyStr))
    end.
Proof.
  induction s as [|c s (seg0 & rest & Hsplit & Hfree & Hrest)].
  - exists EmptyStr, []. repeat split. apply not_elem_of_nil.
  - cbn [split_on]. destruct (N.eqb_spec c sep) as [->|Hne].
    + rewrite Hsplit. exists EmptyStr, (seg0 :: rest).
      split; [reflexivity|]. split; [apply not_elem_of_nil|].
      destruct rest as [|seg1 rest].
      * subst s. exists EmptyStr. by split.
      * destruct Hrest as (pre & -> & Hlast). exists (Str sep pre).
        split; [reflexivity|]. exact Hlast.
    + rewrite Hsplit. exists (Str c seg0), rest. repeat split.
      { cbn [chars]. rewrite not_elem_of_cons. by split; [congruence|]. }
      destruct rest as [|seg1 rest].
      * by subst s.
      * destruct Hrest as (pre & -> & Hlast). by exists (Str c pre).
Qed.

Lemma split_on_last (sep : N) (s : str) :
  last_segment_of sep s (List.last (split_on sep s) EmptyStr).
Proof.
  destruct (split_on_spec sep s) as (seg0 & rest & -> & Hfree & Hrest).
  destruct rest as [|seg1 rest].
  - subst s. split; [done|]. exists EmptyStr. split; [done | by left].
  - destruct Hrest as (pre & -> & Hlast).
    change (List.last (seg0 :: seg1 :: rest) EmptyStr)
      with (List.last (seg1 :: rest) EmptyStr).
    split; [done|].
    exists (pre +:+ Str sep EmptyStr). split.
    + by rewrite app_assoc_string.
    + right. by exists pre.
Qed.

Lemma span_digits_spec (l : list N) :
  l = (span_digits l).1 ++ (span_digits l).2 /\
  Forall (fun c => is_decimal c = true) (span_digits l).1.
Proof.
  induction l as [|c l [IH1 IH2]]; cbn [span_digits]; [by split|].
  destruct (is_decimal c) eqn:Hc; [|by split].
  destruct (span_digits l) as [ds rest]; cbn [fst snd] in *.
  split; [cbn [app]; by f_equal | by constructor].
Qed.

Lemma span_digits_app (ds : list N) (c : N) (b : list N) :
  Forall (fun c => is_decimal c = true) ds -> is_decimal c = false ->
  span_digits (ds ++ c :: b) = (ds, c :: b).
Proof.
  intros Hds Hc. induction Hds as [|d ds Hd _ IH]; cbn [span_digits app].
  - by rewrite Hc.
  - by rewrite Hd, IH.
Qed.

Lemma match_index_rev_Some (r base : list N) :
  match_index_rev r = Some base <->
  exists ds, ds <> [] /\ Forall (fun c => is_decimal c = true) ds /\
             r = "]"%cp :: ds ++ "["%cp :: base.
Proof.
  split.
  - unfold match_index_rev. intros H.
    destruct r as [|c r]; [done|].
    destruct (N.eqb_spec c "]"%cp) as [->|Hc]; [|done].
    destruct (span_digits_spec r) as [Hr Hds].
    destruct (span_digits r) as [[|d ds] rest]; cbn [fst snd] in *; [done|].
    destruct rest as [|o base']; [done|].
    destruct (N.eqb_spec o "["%cp) as [->|Ho]; [|done].
    injection H as <-. exists (d :: ds). by rewrite Hr.
  - intros (ds & Hne & Hds & ->). unfold match_index_rev.
    rewrite N.eqb_refl, span_digits_app by done.
    destruct ds; [done|]. by rewrite N.eqb_refl.
Qed.

Lemma index_suffix_match (seg base : str) :
  index_suffix seg base <->
  match_index_rev (reverse (chars seg)) = Some (reverse (chars base)).
Proof.
  rewrite match_index_rev_Some. split.
  - intros (ds & [Hne Hds] & ->). exists (reverse (chars ds)). repeat split.
    + intros H. apply Hne, chars_inj. apply (f_equal reverse) in H.
      by rewrite reverse_involutive in H.
    + by apply Forall_reverse.
    + rewrite !chars_app. change (chars "]") with ["]"%cp].
      change (chars "[") with ["["%cp].
      rewrite !reverse_app, !reverse_singleton, <- !app_assoc. reflexivity.
  - intros (ds & Hne & Hds & Hrev). exists (text (reverse ds)). split; [split|].
    + intros H. apply Hne. apply (f_equal chars) in H.
      rewrite chars_text in H. apply (f_equal reverse) in H.
      by rewrite reverse_involutive in H.
    + rewrite chars_text. by apply Forall_reverse.
    + apply chars_inj. rewrite !chars_app, chars_text.
      apply (f_equal reverse) in Hrev. rewrite reverse_involutive in Hrev.
      rewrite Hrev. change (chars "]") with ["]"%cp].
      change (chars "[") with ["["%cp].
      rewrite reverse_cons, reverse_app, reverse_cons, reverse_involutive.
      by rewrite <- !app_assoc.
Qed.

Lemma str_contains_char (c : N) (s : str) :
  c ∈ chars s -> str_contains (Str c EmptyStr) s = true.
Proof.
  induction s as [|a s IH]; [by intros ?%elem_of_nil|].
  cbn [chars]. intros [Heq|Hin]%elem_of_cons; cbn [str_contains prefix].
  - subst a. by rewrite N.eqb_refl.
  - rewrite IH by done. apply orb_true_r.
Qed.

Lemma endswith_char (c : N) (s : str) :
  endswith (Str c EmptyStr) s = true <->
  exists r, reverse (chars s) = c :: r.
Proof.
  unfold endswith. rewrite bool_decide_eq_true. split.
  - intros [k Hk]. exists (reverse k). rewrite Hk.
    by rewrite reverse_app.
  - intros [r Hr]. exists (reverse r). apply (f_equal reverse) in Hr.
    rewrite reverse_involutive in Hr. rewrite Hr.
    by rewrite reverse_cons.
Qed.

(** The lower case of a text that is not empty is not empty. *)
Lemma lower_of_cons (c : N) : exists x l, lower_of c = x :: l.
Proof.
  unfold lower_of. destruct (c =? 304)%N; [by eexists _, _|].
  destruct (find _ _) as [[[[first last] step] target]|]; by eexists _, _.
Qed.

Lemma lower_empty (s : str) : lower s = EmptyStr -> s = EmptyStr.
Proof.
  destruct s as [|c s]; [done|]. unfold lower. cbn [chars lower_from].
  destruct (c =? 931)%N; [done|].
  by destruct (lower_of_cons c) as (x & l & ->).
Qed.

(** A closing bracket is no newline: the pattern is looked for at the very
    end of a text that ends with the bracket. *)
Lemma re_sub_index_bracket (seg : str) (r : list N) :
  reverse (chars seg) = "]"%cp :: r ->
  re_sub_index seg =
  match match_index_rev ("]"%cp :: r) with
  | Some base => text (reverse base)
  | None => seg
  end.
Proof. intros Hr. unfold re_sub_index. by rewrite Hr. Qed.

(** The index is stripped when there is one, and only then. *)
Lemma strip_index_spec (seg : str) :
  let name := if str_contains "[" seg && endswith "]" seg
              then re_sub_index seg else seg in
  index_suffix seg name \/ (name = seg /\ forall base, ~ index_suffix seg base).
Proof.
  cbv zeta. destruct (match_index_rev (reverse (chars seg))) as [b|] eqn:Hm.
  - left. pose proof Hm as Hm'. apply match_index_rev_Some in Hm'.
    destruct Hm' as (ds & _ & _ & Hrev).
    assert (str_contains "[" seg = true) as ->.
    { apply str_contains_char. apply (f_equal reverse) in Hrev.
      rewrite reverse_involutive in Hrev. rewrite Hrev.
      rewrite reverse_cons, reverse_app, reverse_cons.
      rewrite !elem_of_app, !list_elem_of_singleton. by left; left; right. }
    assert (endswith "]" seg = true) as ->.
    { apply endswith_char. eauto. }
    cbn [andb]. rewrite (re_sub_index_bracket _ _ Hrev), <- Hrev, Hm.
    apply index_suffix_match. by rewrite chars_text, reverse_involutive.
  - right.
    assert (forall base, ~ index_suffix seg base) as Hno.
    { intros base H. apply index_suffix_match in H. congruence. }
    split; [|done].
    destruct (str_contains "[" seg); [|done].
    destruct (endswith "]" seg) eqn:He; [|done]. cbn [andb].
    apply endswith_char in He as [r Hr].
    by rewrite (re_sub_index_bracket _ _ Hr), <- Hr, Hm.
Qed.

(** ** The five steps on a record *)

Lemma restore_name_dict (d : gmap str json) :
  restore_name (JDict d) =
  match d !! "name", d !! "name_path" with
  | Some _, _ | None, None => Ok (JDict d)
  | None, Some (JStr p) => Ok (JDict (<["name":=JStr (derived_name p)]> d))
  | None, Some _ => Raise AttributeError
  end.
Proof.
  unfold restore_name. simpl.
  destruct (d !! "name"); simpl; [done|].
  by destruct (d !! "name_path") as [[]|].
Qed.

Lemma kind_to_string_dict (d : gmap str json) :
  kind_to_string (JDict d) =
  match d !! "kind" with
  | Some v =>
      match as_int v with
      | Some k => Ok (JDict (<["kind":=JStr (lower (get_symbol_kind_name k))]> d))
      | None => Ok (JDict d)
      end
  | None => Ok (JDict d)
  end.
Proof.
  unfold kind_to_string, py_contains, py_getitem, py_setitem, bind.
  destruct (d !! "kind") as [v|]; [|reflexivity].
  change (bool_decide (is_Some (Some v))) with true. cbn [negb].
  by destruct (as_int v).
Qed.

Lemma transform_range_dict (d : gmap str json) :
  transform_range (JDict d) =
  match d !! "range" with
  | Some (JDict r) =>
      do new_range <- line_range r;
      Ok (JDict (from_option (fun v => <["range":=v]> d) d new_range))
  | _ =>
      match d !! "body_location" with
      | Some (JDict b) => Ok (JDict (<["range":=JDict b]> d))
      | _ => Ok (JDict d)
      end
  end.
Proof.
  unfold transform_range, holds_dict, line_range. simpl.
  destruct (d !! "range") as [[]|] eqn:Hr; simpl;
    try (by destruct (d !! "body_location") as [[]|]).
  destruct (py_contains "line" (from_option id (JDict ∅) (d0 !! "start")))
    as [[]|]; simpl; [| |done].
  - destruct (py_contains "line" (from_option id (JDict ∅) (d0 !! "end")))
      as [[]|]; simpl; [| done..].
    destruct (py_getitem (from_option id (JDict ∅) (d0 !! "start")) "line");
      simpl; [|done].
    by destruct (py_getitem (from_option id (JDict ∅) (d0 !! "end")) "line").
  - done.
Qed.

Lemma ensure_file_dict (d : gmap str json) :
  ensure_file (JDict d) =
  match d !! "relative_path" with
  | Some v => Ok (JDict (<["file":=v]> d))
  | None => Ok (JDict d)
  end.
Proof. unfold ensure_file. simpl. by destruct (d !! "relative_path"). Qed.

Lemma guess_language_dict (d : gmap str json) :
  guess_language (JDict d) =
  match d !! "language", d !! "file" with
  | Some _, _ | None, None => Ok (JDict d)
  | None, Some (JStr file) =>
      Ok (JDict (from_option (fun l => <["language":=JStr l]> d) d
                   (language_of_file file)))
  | None, Some _ => Raise TypeError
  end.
Proof.
  unfold guess_language, language_of_file. simpl.
  destruct (d !! "language"); simpl; [done|].
  destruct (d !! "file") as [[]|]; simpl; try done.
  by repeat case_bool_decide.
Qed.

Ltac frame_insert :=
  eexists; split; [reflexivity|]; intros; by rewrite ?lookup_insert_ne.

Lemma restore_name_writes : writes_only "name" restore_name.
Proof.
  intros d out. rewrite restore_name_dict.
  destruct (d !! "name"); [intros [= <-]; frame_insert|].
  destruct (d !! "name_path") as [[]|]; intros [= <-]; frame_insert.
Qed.

Lemma kind_to_string_writes : writes_only "kind" kind_to_string.
Proof.
  intros d out. rewrite kind_to_string_dict.
  destruct (d !! "kind") as [v|]; [destruct (as_int v) as [k|]|];
    [generalize (lower (get_symbol_kind_name k)); intros name| |];
    intros [= <-]; frame_insert.
Qed.

Lemma transform_range_writes : writes_only "range" transform_range.
Proof.
  intros d out. rewrite transform_range_dict.
  destruct (d !! "range") as [[]|];
    try (destruct (d !! "body_location") as [[]|]; intros [= <-]; frame_insert).
  destruct (line_range d0) as [[]|]; simpl; intros [= <-]; frame_insert.
Qed.

Lemma ensure_file_writes : writes_only "file" ensure_file.
Proof.
  intros d out. rewrite ensure_file_dict.
  destruct (d !! "relative_path"); intros [= <-]; frame_insert.
Qed.

Lemma guess_language_writes : writes_only "language" guess_language.
Proof.
  intros d out. rewrite guess_language_dict.
  destruct (d !! "language"); [intros [= <-]; frame_insert|].
  destruct (d !! "file") as [[]|]; try (intros [= <-]; frame_insert).
  destruct (language_of_file s); simpl; intros [= <-]; frame_insert.
Qed.

(** The records the five steps go through. *)
Lemma transform_symbol_result_steps (d : gmap str json) (out : json) :
  transform_symbol_result (JDict d) = Ok out ->
  exists d1 d2 d3 d4 d5,
    restore_name (JDict d) = Ok (JDict d1) /\
    kind_to_string (JDict d1) = Ok (JDict d2) /\
    transform_range (JDict d2) = Ok (JDict d3) /\
    ensure_file (JDict d3) = Ok (JDict d4) /\
    guess_language (JDict d4) = Ok (JDict d5) /\
    out = JDict d5.
Proof.
  unfold transform_symbol_result. intros H.
  destruct (restore_name (JDict d)) as [o1|] eqn:H1; [|done].
  destruct (restore_name_writes _ _ H1) as (d1 & -> & _). cbn [bind] in H.
  destruct (kind_to_string (JDict d1)) as [o2|] eqn:H2; [|done].
  destruct (kind_to_string_writes _ _ H2) as (d2 & -> & _). cbn [bind] in H.
  destruct (transform_range (JDict d2)) as [o3|] eqn:H3; [|done].
  destruct (transform_range_writes _ _ H3) as (d3 & -> & _). cbn [bind] in H.
  destruct (ensure_file (JDict d3)) as [o4|] eqn:H4; [|done].
  destruct (ensure_file_writes _ _ H4) as (d4 & -> & _). cbn [bind] in H.
  destruct (guess_language_writes _ _ H) as (d5 & -> & _).
  by exists d1, d2, d3, d4, d5.
Qed.

Lemma transform_symbol_result_normalization (d : gmap str json) (out : json) :
  transform_symbol_result (JDict d) = Ok out ->
  exists d1 d2 d3 d4 d5, out = JDict d5 /\ normalization d d1 d2 d3 d4 d5.
Proof.
  intros (d1 & d2 & d3 & d4 & d5 & H1 & H2 & H3 & H4 & H5 & ->)
    %transform_symbol_result_steps.
  exists d1, d2, d3, d4, d5. split; [done|].
  destruct (restore_name_writes _ _ H1) as (? & [= <-] & ?).
  destruct (kind_to_string_writes _ _ H2) as (? & [= <-] & ?).
  destruct (transform_range_writes _ _ H3) as (? & [= <-] & ?).
  destruct (ensure_file_writes _ _ H4) as (? & [= <-] & ?).
  destruct (guess_language_writes _ _ H5) as (? & [= <-] & ?).
  by constructor.
Qed.

(** ** The derived name *)

Lemma derived_name_spec (p : str) : name_of_path p (derived_name p).
Proof.
  exists (List.last (split_on "/"%cp p) EmptyStr).
  split; [apply split_on_last | apply strip_index_spec].
Qed.

Lemma test_item_result :
  transform_symbol_result (JDict test_item) = Ok (JDict test_item_normalized).
Proof. vm_compute. reflexivity. Qed.

(** C1.  A record with a string [name_path] and no [name] gets as [name]
    the last segment of the path between slashes, less a closing index of
    bracketed decimal digits when there is one, whatever the script of the
    digits; a record that has a [name] keeps it. *)
Theorem name_from_name_path (d : gmap str json) (out : json) :
  transform_symbol_result (JDict d) = Ok out ->
  exists d', out = JDict d' /\
    match d !! "name" with
    | Some v => d' !! "name" = Some v
    | None =>
        forall p, d !! "name_path" = Some (JStr p) ->
          exists name, d' !! "name" = Some (JStr name) /\ name_of_path p name
    end.
Proof.
  intros (d1 & d2 & d3 & d4 & d5 & -> & N)%transform_symbol_result_normalization.
  exists d5. split; [done|].
  assert (d5 !! "name" = d1 !! "name") as ->.
  { rewrite (keep_language _ _ _ _ _ _ N), (keep_file _ _ _ _ _ _ N),
      (keep_range _ _ _ _ _ _ N), (keep_kind _ _ _ _ _ _ N); done. }
  pose proof (step_name _ _ _ _ _ _ N) as H1. rewrite restore_name_dict in H1.
  destruct (d !! "name") as [v|] eqn:Hname.
  - injection H1 as <-. done.
  - intros p Hp. rewrite Hp in H1. injection H1 as <-.
    exists (derived_name p). split; [apply lookup_insert_eq|].
    apply derived_name_spec.
Qed.

(** The record of the test suite: its name is [my_method].  And an index
    written with the Arabic-Indic digit three, U+0663, is removed as well. *)
Lemma name_from_name_path_witness :
  let path := "C/f[" +:+ Str 1635 "]" in
  let item : gmap str json := {[ "name_path" := JStr path ]} in
  transform_symbol_result (JDict test_item) = Ok (JDict test_item_normalized) /\
  test_item_normalized !! "name" = Some (JStr "my_method") /\
  name_of_path "MyClass/my_method[0]" "my_method" /\
  transform_symbol_result (JDict item) = Ok (JDict (<["name":=JStr "f"]> item)) /\
  name_of_path path "f".
Proof.
  intros path item.
  assert (transform_symbol_result (JDict item)
          = Ok (JDict (<["name":=JStr "f"]> item))) as Hitem by (by vm_compute).
  split; [exact test_item_result|].
  destruct (name_from_name_path _ _ test_item_result) as (d' & [= <-] & H).
  destruct (H _ eq_refl) as (name & Hname & Hpath).
  assert (name = "my_method") as -> by (by injection Hname).
  split; [done|]. split; [done|]. split; [exact Hitem|].
  destruct (name_from_name_path _ _ Hitem) as (d' & [= <-] & H').
  destruct (H' path eq_refl) as (name & Hname' & Hpath').
  assert (name = "f") as ->; [|done].
  rewrite lookup_insert_eq in Hname'. by injection Hname'.
Defined.

(** ** The kind table *)

Lemma kinds_lookup (k : Z) :
  kinds !! k =
  if bool_decide (1 <= k <= 26) then symbol_kinds !! Z.to_nat (k - 1) else None.
Proof.
  case_bool_decide as Hk.
  - destruct k as [|p|p]; [lia| |lia].
    do 5 (try match goal with q : positive |- _ => destruct q; try lia end);
      reflexivity.
  - apply not_elem_of_list_to_map_1. cbn [fmap list_fmap fst].
    rewrite !not_elem_of_cons. repeat split; try lia. apply not_elem_of_nil.
Qed.

(** A text whose code points are their own lower case, none of them the
    capital sigma, is its own lower case. *)
Lemma lower_from_fixed (before l : list N) :
  Forall (fun c => c <> 931%N /\ lower_of c = [c]) l ->
  lower_from before l = l.
Proof.
  revert before. induction l as [|c l IH]; intros before Hl; [done|].
  inversion_clear Hl as [|? ? [Hsigma Hc] Hrest]. cbn [lower_from].
  rewrite (proj2 (N.eqb_neq _ _) Hsigma), Hc. cbn [app]. by rewrite IH.
Qed.

Lemma lower_fixed (s : str) :
  Forall (fun c => c <> 931%N /\ lower_of c = [c]) (chars s) -> lower s = s.
Proof. intros Hs. unfold lower. by rewrite lower_from_fixed, text_chars. Qed.

Lemma pretty_N_char_fixed (x : N) :
  let c := Ascii.N_of_ascii (pretty_N_char x) in
  c <> 931%N /\ lower_of c = [c].
Proof. unfold pretty_N_char. by repeat case_match; vm_compute. Qed.

Lemma pretty_N_go_fixed (x : N) (s : String.string) :
  Forall (fun c => c <> 931%N /\ lower_of c = [c]) (chars (str_of_string s)) ->
  Forall (fun c => c <> 931%N /\ lower_of c = [c])
    (chars (str_of_string (pretty_N_go x s))).
Proof.
  revert s. induction (N.lt_wf_0 x) as [x _ IH]; intros s Hs.
  destruct (decide (x = 0)%N) as [->|Hx].
  - by rewrite pretty_N_go_0.
  - rewrite pretty_N_go_step by lia. apply IH.
    + apply N.div_lt; lia.
    + unfold str_of_string in *. rewrite chars_text in *.
      cbn [String.list_ascii_of_string map]. constructor; [|done].
      apply pretty_N_char_fixed.
Qed.

(** [str(k).lower()] is [str(k)]. *)
Lemma lower_pretty (k : Z) :
  lower (str_of_string (pretty k)) = str_of_string (pretty k).
Proof.
  apply lower_fixed.
  unfold pretty, pretty_Z. destruct k as [|p|p].
  - unfold str_of_string. rewrite chars_text.
    repeat constructor; by vm_compute.
  - unfold pretty, pretty_positive, pretty, pretty_N.
    case_decide; [done|]. apply pretty_N_go_fixed.
    unfold str_of_string. rewrite chars_text. constructor.
  - unfold pretty, pretty_positive, pretty, pretty_N.
    case_decide; [done|].
    change (str_of_string (String.append "-" (pretty_N_go (N.pos p) "")))
      with (Str "-"%cp (str_of_string (pretty_N_go (N.pos p) ""))).
    cbn [chars]. constructor; [by vm_compute|].
    apply pretty_N_go_fixed. unfold str_of_string. rewrite chars_text.
    constructor.
Qed.

Lemma get_symbol_kind_name_int (k : Z) :
  lower (get_symbol_kind_name (PyInt k)) =
  if bool_decide (1 <= k <= 26)
  then lower (from_option id EmptyStr (symbol_kinds !! Z.to_nat (k - 1)))
  else str_of_string (pretty k).
Proof.
  unfold get_symbol_kind_name. cbn [int_value py_str_int].
  rewrite kinds_lookup. case_bool_decide as Hk.
  - destruct (lookup_lt_is_Some_2 symbol_kinds (Z.to_nat (k - 1))) as [nm ->];
      [cbn [length symbol_kinds]; lia | reflexivity].
  - apply lower_pretty.
Qed.

(** The [kind] entry goes through steps 1, 3, 4 and 5 untouched. *)
Lemma normalization_kind (d d1 d2 d3 d4 d5 : gmap str json) :
  normalization d d1 d2 d3 d4 d5 ->
  d1 !! "kind" = d !! "kind" /\ d5 !! "kind" = d2 !! "kind".
Proof.
  intros N. split.
  - by apply (keep_name _ _ _ _ _ _ N).
  - rewrite (keep_language _ _ _ _ _ _ N), (keep_file _ _ _ _ _ _ N),
      (keep_range _ _ _ _ _ _ N); done.
Qed.

(** C2 (as amended).  An integer [kind] that is not a boolean becomes the
    lower-cased entry of the table for the codes 1 to 26, and its decimal
    string for any other code; code 6 becomes [method].  A [kind] that is
    neither an integer nor a boolean is left as it is. *)
Theorem kind_from_table (d : gmap str json) (out : json) :
  transform_symbol_result (JDict d) = Ok out ->
  exists d', out = JDict d' /\
    match d !! "kind" with
    | Some (JInt k) =>
        (1 <= k <= 26 ->
           exists entry, symbol_kinds !! Z.to_nat (k - 1) = Some entry /\
                         d' !! "kind" = Some (JStr (lower entry))) /\
        (~ 1 <= k <= 26 ->
           d' !! "kind" = Some (JStr (str_of_string (pretty k)))) /\
        (k = 6 -> d' !! "kind" = Some (JStr "method"))
    | Some (JBool _) => True
    | other => d' !! "kind" = other
    end.
Proof.
  intros (d1 & d2 & d3 & d4 & d5 & -> & N)%transform_symbol_result_normalization.
  exists d5. split; [done|].
  destruct (normalization_kind _ _ _ _ _ _ N) as [H1 ->].
  pose proof (step_kind _ _ _ _ _ _ N) as H2.
  rewrite kind_to_string_dict in H2. rewrite <- H1. revert H2.
  destruct (d1 !! "kind") as [v|] eqn:Hv; [|by intros [= <-]].
  destruct v as [|b|k|f|s|l|r]; cbn [as_int];
    [ intros [= <-]; exact Hv | intros _; exact I | |
      intros [= <-]; exact Hv .. ].
  rewrite get_symbol_kind_name_int. intros [= <-].
  rewrite lookup_insert_eq. case_bool_decide as Hk.
  - destruct (lookup_lt_is_Some_2 symbol_kinds (Z.to_nat (k - 1))) as [nm Hnm];
      [cbn [length symbol_kinds]; lia|].
    rewrite Hnm. split; [|split].
    + intros _. by exists nm.
    + done.
    + intros ->. by injection Hnm as <-.
  - split; [done|]. split; [done|]. intros ->. lia.
Qed.

Lemma kind_from_table_witness :
  transform_symbol_result (JDict test_item) = Ok (JDict test_item_normalized) /\
  test_item_normalized !! "kind" = Some (JStr "method").
Proof.
  split; [exact test_item_result|].
  destruct (kind_from_table _ _ test_item_result) as (d' & [= <-] & H).
  exact (proj2 (proj2 H) eq_refl).
Defined.

(** C2 as it is worded fails on a boolean [kind]: Python's [True] is an
    [int], it hits the entry 1 of the table and becomes [file], and [False]
    becomes [false], which is neither the value left as it was nor the
    decimal string [0]. *)
Lemma kind_boolean_counterexample :
  transform_symbol_result (JDict {[ "kind" := JBool true ]})
    = Ok (JDict {[ "kind" := JStr "file" ]}) /\
  transform_symbol_result (JDict {[ "kind" := JBool false ]})
    = Ok (JDict {[ "kind" := JStr "false" ]}) /\
  JStr "file" <> JBool true /\
  JStr "false" <> JBool false /\ JStr "false" <> JStr (str_of_string (pretty 0)).
Proof. repeat split; (by vm_compute) || discriminate. Qed.

(** ** The range *)

Lemma bind_Ok {A B : Type} (m : result A) (k : A -> result B) (b : B) :
  bind m k = Ok b -> exists a, m = Ok a /\ k a = Ok b.
Proof. destruct m as [a|]; [|done]. intros H. by exists a. Qed.

(** Only a mapping can be indexed by a key. *)
Lemma py_getitem_Ok (c : json) (key : str) (v : json) :
  py_getitem c key = Ok v -> exists m, c = JDict m /\ m !! key = Some v.
Proof.
  destruct c as [| | | | | |m]; try done. cbn [py_getitem].
  destruct (m !! key) as [w|] eqn:Hw; [|done]. intros [= <-]. by exists m.
Qed.

Lemma default_dict_lookup (o : option json) (m : gmap str json) (v : json) :
  from_option id (JDict ∅) o = JDict m -> m !! "line" = Some v ->
  o = Some (JDict m).
Proof.
  destruct o as [w|]; cbn [from_option id]; [by intros ->|].
  intros [= <-]. by rewrite lookup_empty.
Qed.

Lemma line_range_pair (r : gmap str json) (sl el : json) :
  has_line_pair r sl el -> line_range r = Ok (Some (lines sl el)).
Proof.
  intros (start & end_ & Hs & Hsl & He & Hel). unfold line_range.
  rewrite Hs, He. cbn [from_option id py_contains py_getitem bind].
  rewrite Hsl, Hel. reflexivity.
Qed.

Lemma line_range_Some (r : gmap str json) (v : json) :
  line_range r = Ok (Some v) ->
  exists sl el, has_line_pair r sl el /\ v = lines sl el.
Proof.
  unfold line_range.
  intros (has & _ & (both & _ & H)%bind_Ok)%bind_Ok.
  destruct both; [|done].
  apply bind_Ok in H as (sl & Hsl & (el & Hel & [= <-])%bind_Ok).
  apply py_getitem_Ok in Hsl as (start & Hstart & Hsl).
  apply py_getitem_Ok in Hel as (end_ & Hend & Hel).
  exists sl, el. split; [|done]. exists start, end_.
  split; [exact (default_dict_lookup _ _ _ Hstart Hsl)|].
  split; [exact Hsl|].
  split; [exact (default_dict_lookup _ _ _ Hend Hel) | exact Hel].
Qed.

Lemma line_range_no_pair (r : gmap str json) (o : option json) :
  line_range r = Ok o -> (forall sl el, ~ has_line_pair r sl el) -> o = None.
Proof.
  intros H Hno. destruct o as [v|]; [|done].
  destruct (line_range_Some _ _ H) as (sl & el & Hpair & _).
  by destruct (Hno sl el).
Qed.

(** The entries step 3 reads reach it as they were, and its [range] is the
    final one. *)
Lemma normalization_range (d d1 d2 d3 d4 d5 : gmap str json) :
  normalization d d1 d2 d3 d4 d5 ->
  d2 !! "range" = d !! "range" /\
  d2 !! "body_location" = d !! "body_location" /\
  d5 !! "range" = d3 !! "range".
Proof.
  intros N. repeat split.
  - rewrite (keep_kind _ _ _ _ _ _ N), (keep_name _ _ _ _ _ _ N); done.
  - rewrite (keep_kind _ _ _ _ _ _ N), (keep_name _ _ _ _ _ _ N); done.
  - rewrite (keep_language _ _ _ _ _ _ N), (keep_file _ _ _ _ _ _ N); done.
Qed.

(** The [range] of a record after step 3. *)
Lemma transform_range_result (d2 d3 : gmap str json) :
  transform_range (JDict d2) = Ok (JDict d3) ->
  match d2 !! "range" with
  | Some (JDict r) =>
      exists o, line_range r = Ok o /\
                d3 !! "range" = Some (from_option id (JDict r) o)
  | other =>
      match d2 !! "body_location" with
      | Some (JDict b) => d3 !! "range" = Some (JDict b)
      | _ => d3 !! "range" = other
      end
  end.
Proof.
  rewrite transform_range_dict.
  destruct (d2 !! "range") as [v|] eqn:Hr.
  - destruct v as [| | | | | |r];
      try (destruct (d2 !! "body_location") as [[]|]; intros [= <-];
           by rewrite ?lookup_insert_eq).
    destruct (line_range r) as [o|]; [|done]. cbn [bind]. intros [= <-].
    exists o. split; [done|].
    destruct o; cbn [from_option id]; by rewrite ?lookup_insert_eq.
  - destruct (d2 !! "body_location") as [[]|]; intros [= <-];
      by rewrite ?lookup_insert_eq.
Qed.

(** C3 (as amended).  (a) A [range] that is a mapping with [start.line] and
    [end.line] becomes the two lines; (b) when [range] is missing or is not
    a mapping, a [body_location] that is a mapping is used as the range;
    (c) otherwise [range] stays as it was.  A record without [range] and
    with the [body_location] of lines 10 and 20 gets these as its range. *)
Theorem range_reconciliation (d : gmap str json) (out : json) :
  transform_symbol_result (JDict d) = Ok out ->
  exists d', out = JDict d' /\
    match d !! "range" with
    | Some (JDict r) =>
        (forall sl el, has_line_pair r sl el ->
           d' !! "range" = Some (lines sl el)) /\
        ((forall sl el, ~ has_line_pair r sl el) ->
           d' !! "range" = Some (JDict r))
    | other =>
        match d !! "body_location" with
        | Some (JDict b) => d' !! "range" = Some (JDict b)
        | _ => d' !! "range" = other
        end
    end.
Proof.
  intros (d1 & d2 & d3 & d4 & d5 & -> & N)%transform_symbol_result_normalization.
  exists d5. split; [done|].
  destruct (normalization_range _ _ _ _ _ _ N) as (Hr & Hb & ->).
  pose proof (transform_range_result _ _ (step_range _ _ _ _ _ _ N)) as H3.
  rewrite Hr, Hb in H3.
  destruct (d !! "range") as [[| | | | | |r]|]; try exact H3.
  destruct H3 as (o & Ho & ->). split.
  - intros sl el Hpair. rewrite (line_range_pair _ _ _ Hpair) in Ho.
    by injection Ho as <-.
  - intros Hno. by rewrite (line_range_no_pair _ _ Ho Hno).
Qed.

Lemma range_reconciliation_witness :
  transform_symbol_result (JDict test_item) = Ok (JDict test_item_normalized) /\
  test_item_normalized !! "range" = Some (lines (JInt 10) (JInt 20)).
Proof.
  split; [exact test_item_result|].
  destruct (range_reconciliation _ _ test_item_result) as (d' & [= <-] & H).
  exact H.
Defined.

(** C3 as it is worded fails on a record whose [range] is a mapping without
    the two lines: its [body_location] is not used. *)
Lemma range_priority_counterexample :
  let body := JDict (<["start_line":=JInt 10]> (<["end_line":=JInt 20]> ∅)) in
  let item : gmap str json :=
    <["range":=JDict ∅]> {[ "body_location" := body ]} in
  (forall sl el, ~ has_line_pair ∅ sl el) /\
  item !! "body_location" = Some body /\
  transform_symbol_result (JDict item) = Ok (JDict item) /\
  item !! "range" = Some (JDict ∅) /\
  item !! "range" <> Some body.
Proof.
  repeat split; try (by vm_compute).
  intros sl el (s & e & Hs & _). by rewrite lookup_empty in Hs.
Qed.

(** C4 (as amended).  The normalizer does not read [selection_range]: a
    record without the two lines of [range] and without [body_location]
    keeps the [range] entry it came with (none when it had none), whatever
    its [selection_range], which is kept too. *)
Theorem selection_range_not_read (d : gmap str json) (out : json) :
  transform_symbol_result (JDict d) = Ok out ->
  (forall r, d !! "range" = Some (JDict r) ->
             forall sl el, ~ has_line_pair r sl el) ->
  d !! "body_location" = None ->
  exists d', out = JDict d' /\
    d' !! "range" = d !! "range" /\
    d' !! "selection_range" = d !! "selection_range".
Proof.
  intros (d1 & d2 & d3 & d4 & d5 & -> & N)%transform_symbol_result_normalization
    Hno Hbody.
  exists d5. split; [done|]. split.
  - destruct (normalization_range _ _ _ _ _ _ N) as (Hr & Hb & ->).
    pose proof (transform_range_result _ _ (step_range _ _ _ _ _ _ N)) as H3.
    rewrite Hr, Hb, Hbody in H3.
    destruct (d !! "range") as [[| | | | | |r]|]; try exact H3.
    destruct H3 as (o & Ho & ->).
    by rewrite (line_range_no_pair _ _ Ho (Hno r eq_refl)).
  - rewrite (keep_language _ _ _ _ _ _ N), (keep_file _ _ _ _ _ _ N),
      (keep_range _ _ _ _ _ _ N), (keep_kind _ _ _ _ _ _ N),
      (keep_name _ _ _ _ _ _ N); done.
Qed.

Lemma selection_item_result :
  transform_symbol_result (JDict selection_item) = Ok (JDict selection_item).
Proof. by vm_compute. Qed.

Lemma selection_range_not_read_witness :
  transform_symbol_result (JDict selection_item) = Ok (JDict selection_item) /\
  selection_item !! "body_location" = None /\
  selection_item !! "range" = None.
Proof.
  split; [exact selection_item_result|]. split; [reflexivity|].
  assert (forall r, selection_item !! "range" = Some (JDict r) ->
                    forall sl el, ~ has_line_pair r sl el) as Hno by done.
  destruct (selection_range_not_read _ _ selection_item_result Hno eq_refl)
    as (d' & [= <-] & Hrange & _).
  exact Hrange.
Defined.

(** C4 as it is worded fails: the record comes out without a [range], and
    not with one that starts at line 7. *)
Lemma selection_range_counterexample :
  selection_item !! "range" = None /\
  selection_item !! "body_location" = None /\
  (exists sel start,
     selection_item !! "selection_range" = Some (JDict sel) /\
     sel !! "start" = Some (JDict start) /\ start !! "line" = Some (JInt 7)) /\
  transform_symbol_result (JDict selection_item) = Ok (JDict selection_item) /\
  forall end_line,
    selection_item !! "range" <> Some (lines (JInt 7) end_line).
Proof.
  repeat split; try (by vm_compute).
  eexists _, _. repeat split; by vm_compute.
Qed.

(** ** Idempotence *)

Lemma line_range_lines (sl el : json) (r : gmap str json) :
  lines sl el = JDict r -> line_range r = Ok None.
Proof. intros [= <-]. reflexivity. Qed.

Section Idempotence.

Variables d d1 d2 d3 d4 d5 : gmap str json.
Hypothesis N : normalization d d1 d2 d3 d4 d5.

Lemma later_steps_keep (k : str) :
  k <> "kind" -> k <> "range" -> k <> "file" -> k <> "language" ->
  d5 !! k = d1 !! k.
Proof using N.
  intros. rewrite (keep_language _ _ _ _ _ _ N), (keep_file _ _ _ _ _ _ N),
    (keep_range _ _ _ _ _ _ N), (keep_kind _ _ _ _ _ _ N); done.
Qed.

Lemma restore_name_again : restore_name (JDict d5) = Ok (JDict d5).
Proof using N.
  pose proof (step_name _ _ _ _ _ _ N) as H1.
  rewrite restore_name_dict in H1 |- *.
  rewrite !later_steps_keep by done.
  destruct (d !! "name") as [v|] eqn:Hname.
  - injection H1 as <-. by rewrite Hname.
  - destruct (d !! "name_path") as [[| | | |p| |]|] eqn:Hpath; try done.
    + injection H1 as <-. by rewrite lookup_insert_eq.
    + injection H1 as <-. by rewrite Hname, Hpath.
Qed.

Lemma kind_to_string_again : kind_to_string (JDict d5) = Ok (JDict d5).
Proof using N.
  pose proof (step_kind _ _ _ _ _ _ N) as H2.
  rewrite kind_to_string_dict in H2 |- *.
  assert (d5 !! "kind" = d2 !! "kind") as ->.
  { rewrite (keep_language _ _ _ _ _ _ N), (keep_file _ _ _ _ _ _ N),
      (keep_range _ _ _ _ _ _ N); done. }
  revert H2. destruct (d1 !! "kind") as [v|] eqn:Hkind.
  - destruct (as_int v) as [k|] eqn:Hk.
    + generalize (lower (get_symbol_kind_name k)). intros name [= <-].
      by rewrite lookup_insert_eq.
    + intros [= <-]. by rewrite Hkind, Hk.
  - intros [= <-]. by rewrite Hkind.
Qed.

Lemma transform_range_again :
  range_settles d -> transform_range (JDict d5) = Ok (JDict d5).
Proof using N.
  intros Hsettles. unfold range_settles in Hsettles.
  destruct (normalization_range _ _ _ _ _ _ N) as (Hr & Hb & Hr5).
  pose proof (transform_range_result _ _ (step_range _ _ _ _ _ _ N)) as H3.
  rewrite Hr, Hb in H3.
  assert (d5 !! "body_location" = d !! "body_location") as Hb5.
  { rewrite (keep_language _ _ _ _ _ _ N), (keep_file _ _ _ _ _ _ N),
      (keep_range _ _ _ _ _ _ N), (keep_kind _ _ _ _ _ _ N),
      (keep_name _ _ _ _ _ _ N); done. }
  rewrite transform_range_dict, Hr5, Hb5.
  destruct (d !! "range") as [[| | | | | |r]|];
    try (destruct (d !! "body_location") as [[| | | | | |body]|];
         cbn beta iota zeta in Hsettles, H3; rewrite H3; try done;
         by rewrite Hsettles).
  destruct H3 as (o & Ho & ->). destruct o as [v|]; cbn [from_option id].
  - destruct (line_range_Some _ _ Ho) as (sl & el & _ & ->).
    unfold lines. cbn beta iota.
    by rewrite (line_range_lines sl el _ eq_refl).
  - cbn beta iota. by rewrite Ho.
Qed.

Lemma ensure_file_again : ensure_file (JDict d5) = Ok (JDict d5).
Proof using N.
  pose proof (step_file _ _ _ _ _ _ N) as H4.
  rewrite ensure_file_dict in H4 |- *.
  assert (d5 !! "relative_path" = d3 !! "relative_path") as ->.
  { rewrite (keep_language _ _ _ _ _ _ N), (keep_file _ _ _ _ _ _ N); done. }
  destruct (d3 !! "relative_path") as [v|]; [|done].
  injection H4 as <-. f_equal. f_equal. apply insert_id.
  rewrite (keep_language _ _ _ _ _ _ N) by done. apply lookup_insert_eq.
Qed.

Lemma guess_language_again : guess_language (JDict d5) = Ok (JDict d5).
Proof using N.
  pose proof (step_language _ _ _ _ _ _ N) as H5.
  rewrite guess_language_dict in H5 |- *.
  assert (d5 !! "file" = d4 !! "file") as ->
    by (by apply (keep_language _ _ _ _ _ _ N)).
  destruct (d4 !! "language") as [v|] eqn:Hlang.
  - injection H5 as <-. by rewrite Hlang.
  - destruct (d4 !! "file") as [[| | | |file| |]|] eqn:Hfile; try done.
    + destruct (language_of_file file) as [l|] eqn:Hl;
        cbn [from_option] in H5; injection H5 as <-.
      * by rewrite lookup_insert_eq.
      * by rewrite Hlang.
    + injection H5 as <-. by rewrite Hlang.
Qed.

End Idempotence.

(** C5 (as amended).  Normalizing a normalized record gives the same record
    again, provided step 3 has settled: the record has a mapping as its
    [range], or its [body_location] does not itself hold [start.line]. *)
Theorem normalization_idempotent (d : gmap str json) (out : json) :
  transform_symbol_result (JDict d) = Ok out ->
  range_settles d ->
  transform_symbol_result out = Ok out.
Proof.
  intros (d1 & d2 & d3 & d4 & d5 & -> & N)%transform_symbol_result_normalization
    Hsettles.
  unfold transform_symbol_result.
  rewrite (restore_name_again _ _ _ _ _ _ N). cbn [bind].
  rewrite (kind_to_string_again _ _ _ _ _ _ N). cbn [bind].
  rewrite (transform_range_again _ _ _ _ _ _ N Hsettles). cbn [bind].
  rewrite (ensure_file_again _ _ _ _ _ _ N). cbn [bind].
  apply (guess_language_again _ _ _ _ _ _ N).
Qed.

Lemma normalization_idempotent_witness :
  transform_symbol_result (JDict test_item) = Ok (JDict test_item_normalized) /\
  range_settles test_item /\
  transform_symbol_result (JDict test_item_normalized)
    = Ok (JDict test_item_normalized).
Proof.
  assert (range_settles test_item) as Hsettles by (by vm_compute).
  split; [exact test_item_result|]. split; [exact Hsettles|].
  exact (normalization_idempotent _ _ test_item_result Hsettles).
Defined.

(** C5 as it is worded fails twice.  A [body_location] that holds
    [start.line] and [end.line] becomes the [range] on the first pass and is
    reshaped on the second.  And a record that has a [name], a lower-case
    [kind], a [file] and a two-line [range] still changes when it has no
    [language]: one is added from the extension of [file]. *)
Lemma idempotence_counterexample :
  let at_line n : json := JDict {[ "line" := JInt n ]} in
  let body : json := JDict (<["start":=at_line 1]> {[ "end" := at_line 2 ]}) in
  let raw : gmap str json := {[ "body_location" := body ]} in
  let once : gmap str json := <["range":=body]> raw in
  let twice : gmap str json := <["range":=lines (JInt 1) (JInt 2)]> raw in
  let plain : gmap str json :=
    <["name":=JStr "f"]> (<["kind":=JStr "method"]> (<["file":=JStr "a.py"]>
      {[ "range" := lines (JInt 1) (JInt 2) ]})) in
  (transform_symbol_result (JDict raw) = Ok (JDict once) /\
   transform_symbol_result (JDict once) = Ok (JDict twice) /\
   once <> twice) /\
  (transform_symbol_result (JDict plain)
     = Ok (JDict (<["language":=JStr "python"]> plain)) /\
   <["language":=JStr "python"]> plain <> plain).
Proof.
  cbv zeta.
  split; [split; [by vm_compute|split; [by vm_compute|]]|split; [by vm_compute|]].
  - intros H.
    apply (f_equal (fun m : gmap str json =>
                      match m !! "range" with
                      | Some (JDict r) =>
                          match r !! "start" with Some _ => true | None => false end
                      | _ => false
                      end)) in H.
    vm_compute in H. discriminate H.
  - intros H.
    apply (f_equal (fun m : gmap str json =>
                      match m !! "language" with Some _ => true | None => false end))
      in H.
    vm_compute in H. discriminate H.
Qed.

(** ** The language filter and the limit *)

Lemma filter_language_spec (name L : str) (limit : option Z)
    (output_data : list json) :
  L <> "" -> Forall language_is_text output_data ->
  filter_language (find_symbol name (Some L) limit) output_data
    = Ok (List.filter (has_language L) output_data).
Proof.
  intros HL Hwf. cbn [filter_language]. rewrite bool_decide_eq_false_2 by done.
  induction Hwf as [|item rest (d & -> & Hlang) _ IH]; [done|].
  cbn [filter_result List.filter]. rewrite IH.
  unfold language_is, has_language. cbn [py_get bind].
  destruct (d !! "language") as [v|]; cbn [from_option id bind].
  - destruct Hlang as [s ->]. by case_bool_decide.
  - rewrite bool_decide_eq_false_2; [done|].
    intros Hlower. apply HL. symmetry in Hlower. exact (lower_empty _ Hlower).
Qed.

(** C6 (as amended).  With a language hint that is not empty, and
    normalized records whose [language] is a string when present, the tool
    is called with the name pattern alone, and the result is the list of
    the normalized records whose [language] is the hint, letter case
    aside, cut to the limit after the filter. *)
Theorem language_filter_client_side
    (json_loads : str -> result json)
    (call_tool : str -> gmap str json -> result CallToolResult)
    (fmt : output_format) (name L : str) (limit : option Z)
    (response : CallToolResult) (parsed normalized : list json) :
  let a := {| format := fmt; query_command := find_symbol name (Some L) limit |} in
  let selected :=
    limit_results (query_command a) (List.filter (has_language L) normalized) in
  L <> "" ->
  call_tool "find_symbol" {[ "name_path_pattern" := JStr name ]} = Ok response ->
  isError response = false ->
  (parse_content json_loads (content_blocks response)).1 = Ok parsed ->
  map_result transform_symbol_result parsed = Ok normalized ->
  Forall language_is_text normalized ->
  tool_call (main_async json_loads call_tool a)
    = ("find_symbol", {[ "name_path_pattern" := JStr name ]}) /\
  results (query_command a) parsed = Ok selected /\
  stdout (main_async json_loads call_tool a) = (print_output a selected).1.
Proof.
  intros a selected HL Hcall Herr Hparsed Hnorm Hwf.
  assert (results (find_symbol name (Some L) limit) parsed = Ok selected) as Hres.
  { unfold results. rewrite Hnorm. cbn [bind].
    by rewrite filter_language_spec. }
  subst a. unfold main_async.
  cbn [query_command format tool_request fst snd] in *.
  rewrite Hcall, Herr.
  destruct (parse_content json_loads (content_blocks response))
    as [loaded warnings].
  cbn [fst] in Hparsed. subst loaded. cbn [bind]. rewrite Hres.
  split; [|split; [done|]];
    by destruct (print_output _ selected) as [out [e|]].
Qed.

Lemma language_filter_client_side_witness :
  let a := {| format := Json;
              query_command := find_symbol "whatever" (Some "TypeScript") None |} in
  let session := answering [TextContent "two records"] in
  "TypeScript" <> "" /\
  (parse_content sample_loads [TextContent "two records"]).1
    = Ok [JDict foo_item; JDict bar_item] /\
  tool_call (main_async sample_loads session a)
    = ("find_symbol", {[ "name_path_pattern" := JStr "whatever" ]}) /\
  results (query_command a) [JDict foo_item; JDict bar_item]
    = Ok [JDict bar_normalized] /\
  stdout (main_async sample_loads session a)
    = [JsonDocument (JDict {[ "results" := JList [JDict bar_normalized] ]})].
Proof.
  intros a session.
  assert ("TypeScript" <> "") as HL by done.
  assert ((parse_content sample_loads [TextContent "two records"]).1
          = Ok [JDict foo_item; JDict bar_item]) as Hparsed by (by vm_compute).
  assert (map_result transform_symbol_result [JDict foo_item; JDict bar_item]
          = Ok [JDict foo_normalized; JDict bar_normalized]) as Hnorm
    by (by vm_compute).
  assert (Forall language_is_text [JDict foo_normalized; JDict bar_normalized])
    as Hwf.
  { repeat constructor; eexists; (split; [reflexivity|]);
      vm_compute; by eexists. }
  destruct (language_filter_client_side sample_loads session Json "whatever"
              "TypeScript" None
              {| isError := false;
                 content_blocks := [TextContent "two records"] |}
              _ _ HL eq_refl eq_refl Hparsed Hnorm Hwf) as (Hcall & Hres & Hout).
  split; [exact HL|]. split; [exact Hparsed|]. split; [exact Hcall|].
  split; [exact Hres|exact Hout].
Defined.

(** C6 as it is worded fails on an empty hint: [args.language] is then
    false and nothing is filtered, so a record in [python] is kept although
    its language is not the hint. *)
Lemma language_filter_counterexample :
  let python : json := JDict {[ "language" := JStr "python" ]} in
  results (find_symbol "x" (Some "") None) [python] = Ok [python] /\
  List.filter (has_language "") [python] = [].
Proof. split; by vm_compute. Qed.

(** ** The output of an empty result *)

(** C7.  When the final list of a find-symbol command is empty, the text
    mode prints the line [No symbols found.] and the JSON mode prints the
    envelope whose [results] is the empty list. *)
Theorem empty_result_output
    (json_loads : str -> result json)
    (call_tool : str -> gmap str json -> result CallToolResult)
    (fmt : output_format) (name : str) (language : option str)
    (limit : option Z) (response : CallToolResult) (parsed : list json) :
  let a := {| format := fmt; query_command := find_symbol name language limit |} in
  call_tool "find_symbol" {[ "name_path_pattern" := JStr name ]} = Ok response ->
  isError response = false ->
  (parse_content json_loads (content_blocks response)).1 = Ok parsed ->
  results (query_command a) parsed = Ok [] ->
  stdout (main_async json_loads call_tool a) =
    match fmt with
    | Text => [Line "No symbols found."]
    | Json => [JsonDocument (JDict {[ "results" := JList [] ]})]
    end /\
  exit_code (main_async json_loads call_tool a) = 0.
Proof.
  intros a Hcall Herr Hparsed Hres. subst a. unfold main_async.
  cbn [query_command format tool_request fst snd] in *.
  rewrite Hcall, Herr.
  destruct (parse_content json_loads (content_blocks response))
    as [loaded warnings].
  cbn [fst] in Hparsed. subst loaded. cbn [bind]. rewrite Hres. by destruct fmt.
Qed.

Lemma empty_result_output_witness :
  let text_args := {| format := Text;
                      query_command := find_symbol "none" None None |} in
  let json_args := {| format := Json;
                      query_command := find_symbol "none" None None |} in
  let session := answering [TextContent "nothing"] in
  (parse_content sample_loads [TextContent "nothing"]).1 = Ok [] /\
  results (query_command text_args) [] = Ok [] /\
  stdout (main_async sample_loads session text_args)
    = [Line "No symbols found."] /\
  stdout (main_async sample_loads session json_args)
    = [JsonDocument (JDict {[ "results" := JList [] ]})].
Proof.
  intros text_args json_args session.
  assert ((parse_content sample_loads [TextContent "nothing"]).1 = Ok [])
    as Hparsed by (by vm_compute).
  assert (results (find_symbol "none" None None) [] = Ok [])
    as Hres by (by vm_compute).
  split; [exact Hparsed|]. split; [exact Hres|]. split.
  - exact (proj1 (empty_result_output sample_loads session Text "none" None None
                    {| isError := false;
                       content_blocks := [TextContent "nothing"] |}
                    [] eq_refl eq_refl Hparsed Hres)).
  - exact (proj1 (empty_result_output sample_loads session Json "none" None None
                    {| isError := false;
                       content_blocks := [TextContent "nothing"] |}
                    [] eq_refl eq_refl Hparsed Hres)).
Defined.

(** ** Content blocks that do not parse *)







(** ** The limit *)

(** The limit is the last step: a command with a limit gives the result
    of the command without it, cut. *)
Lemma results_limit (name : str) (language : option str)
    (limit : option Z) (parsed filtered : list json) :
  results (find_symbol name language None) parsed = Ok filtered ->
  results (find_symbol name language limit) parsed
    = Ok (limit_results (find_symbol name language limit) filtered).
Proof.
  unfold results.
  destruct (map_result transform_symbol_result parsed) as [normalized|e];
    [|done]. cbn [bind].
  assert (filter_language (find_symbol name language limit) normalized
          = filter_language (find_symbol name language None) normalized) as ->
    by (by destruct language).
  destruct (filter_language _ normalized) as [selected|e]; [|done].
  cbn [bind limit_results]. by intros [= <-].
Qed.

(** What a run prints once the final list is known. *)
Lemma main_async_output
    (json_loads : str -> result json)
    (call_tool : str -> gmap str json -> result CallToolResult)
    (a : args) (response : CallToolResult) (parsed output_data : list json) :
  call_tool (tool_request (query_command a)).1
            (tool_request (query_command a)).2 = Ok response ->
  isError response = false ->
  (parse_content json_loads (content_blocks response)).1 = Ok parsed ->
  results (query_command a) parsed = Ok output_data ->
  stdout (main_async json_loads call_tool a) = (print_output a output_data).1 /\
  exit_code (main_async json_loads call_tool a)
    = match (print_output a output_data).2 with None => 0 | Some _ => 1 end.
Proof.
  intros Hcall Herr Hparsed Hres. unfold main_async. rewrite Hcall, Herr.
  destruct (parse_content json_loads (content_blocks response))
    as [loaded warnings].
  cbn [fst] in Hparsed. subst loaded. cbn [bind]. rewrite Hres.
  by destruct (print_output a output_data) as [out [e|]].
Qed.

(** C9.  In a find-symbol command a limit of zero cuts nothing: the
    records that pass the filter are all printed.  A negative limit [-k]
    drops the last [k] of them, as the Python slice does, and the run
    prints the others; the limit itself is no error, the status is 0
    unless the printing raises. *)
Theorem limit_zero_and_negative
    (json_loads : str -> result json)
    (call_tool : str -> gmap str json -> result CallToolResult)
    (fmt : output_format) (name : str) (language : option str)
    (response : CallToolResult) (parsed filtered : list json) :
  let a limit :=
    {| format := fmt; query_command := find_symbol name language (Some limit) |} in
  let printed_with limit kept :=
    results (query_command (a limit)) parsed = Ok kept /\
    stdout (main_async json_loads call_tool (a limit))
      = (print_output (a limit) kept).1 /\
    exit_code (main_async json_loads call_tool (a limit))
      = match (print_output (a limit) kept).2 with None => 0 | Some _ => 1 end in
  call_tool "find_symbol" {[ "name_path_pattern" := JStr name ]} = Ok response ->
  isError response = false ->
  (parse_content json_loads (content_blocks response)).1 = Ok parsed ->
  results (find_symbol name language None) parsed = Ok filtered ->
  printed_with 0 filtered /\
  forall k, 0 < k ->
    printed_with (- k) (take (length filtered - Z.to_nat k) filtered).
Proof.
  intros a printed_with Hcall Herr Hparsed Hres.
  assert (forall limit,
            printed_with limit
              (limit_results (find_symbol name language (Some limit)) filtered))
    as Hlimit.
  { intros limit. subst printed_with a. cbn beta.
    pose proof (results_limit name language (Some limit) _ _ Hres) as Hcut.
    split; [exact Hcut|].
    by apply (main_async_output json_loads call_tool _ response parsed). }
  split; [exact (Hlimit 0)|]. intros k Hk.
  assert (limit_results (find_symbol name language (Some (- k))) filtered
          = take (length filtered - Z.to_nat k) filtered) as <-;
    [|exact (Hlimit (- k))].
  cbn [limit_results]. destruct (Z.eqb_spec (- k) 0) as [Heq|_]; [lia|].
  unfold py_slice_to. destruct (Z.ltb_spec (- k) 0) as [_|Hge]; [|lia].
  f_equal. lia.
Qed.

Lemma limit_zero_and_negative_witness :
  let a limit := {| format := Json;
                    query_command := find_symbol "x" None (Some limit) |} in
  let session := answering [TextContent "two records"] in
  0 < 1 /\
  results (find_symbol "x" None None) [JDict foo_item; JDict bar_item]
    = Ok [JDict foo_normalized; JDict bar_normalized] /\
  stdout (main_async sample_loads session (a 0))
    = [JsonDocument
         (JDict {[ "results" :=
                     JList [JDict foo_normalized; JDict bar_normalized] ]})] /\
  stdout (main_async sample_loads session (a (- 1)))
    = [JsonDocument (JDict {[ "results" := JList [JDict foo_normalized] ]})] /\
  exit_code (main_async sample_loads session (a (- 1))) = 0.
Proof.
  intros a session.
  assert (results (find_symbol "x" None None) [JDict foo_item; JDict bar_item]
          = Ok [JDict foo_normalized; JDict bar_normalized]) as Hres
    by (by vm_compute).
  destruct (limit_zero_and_negative sample_loads session Json "x" None
              {| isError := false;
                 content_blocks := [TextContent "two records"] |}
              [JDict foo_item; JDict bar_item]
              [JDict foo_normalized; JDict bar_normalized]
              eq_refl eq_refl eq_refl Hres) as [(_ & Hzero & _) Hnegative].
  destruct (Hnegative 1 eq_refl) as (_ & Hout & Hexit).
  split; [lia|]. split; [exact Hres|].
  split; [etrans; [exact Hzero|by vm_compute]|].
  split; [etrans; [exact Hout|by vm_compute]|].
  etrans; [exact Hexit|by vm_compute].
Defined.

(** ** The status of the native client *)

(** C10.  [get_status] never raises: whatever the environment, it returns
    a mapping with exactly the keys [serena_available], [project_detected]
    and [index_state]; the last two are [False] and [unknown] unless the
    agent and the project were obtained. *)
Theorem get_status_total {Agent Project : Type}
    (env : environment Agent Project) (self : SerenaClient Agent) :
  exists status self',
    get_status env self = (Ok status, self') /\
    dom status = ({[ "serena_available"; "project_detected"; "index_state" ]}
                    : gset str) /\
    status !! "serena_available" = Some (JBool (SERENA_AVAILABLE env)) /\
    status !! "project_detected" = Some (JBool (project_obtained env self)) /\
    status !! "index_state" =
      Some (JStr (if project_obtained env self then "configured" else "unknown")).
Proof.
  unfold get_status, project_obtained, agent_obtained, ensure_agent.
  unfold try_except, and_then, call, returning, raising, set_agent.
  destruct (SERENA_AVAILABLE env) eqn:Havailable; cbn [negb].
  - destruct (agent self) as [a|] eqn:Hagent; cbn [agent project_root].
    + rewrite Hagent.
      destruct (get_project env a (project_root self)) as [[p|]|];
        eexists _, _; (split; [reflexivity|]);
        (split; [by rewrite !dom_insert_L, dom_empty_L; set_solver|]);
        by vm_compute.
    + destruct (new_agent env) as [a|]; cbn [agent project_root].
      * destruct (get_project env a (project_root self)) as [[p|]|];
          eexists _, _; (split; [reflexivity|]);
          (split; [by rewrite !dom_insert_L, dom_empty_L; set_solver|]);
          by vm_compute.
      * eexists _, _; (split; [reflexivity|]);
          (split; [by rewrite !dom_insert_L, dom_empty_L; set_solver|]);
          by vm_compute.
  - eexists _, _; (split; [reflexivity|]);
      (split; [by rewrite !dom_insert_L, dom_empty_L; set_solver|]);
      by vm_compute.
Qed.

(** ** The normalizer returns on well-typed records *)

Lemma line_range_ok (r : gmap str json) :
  (forall v, r !! "start" = Some v \/ r !! "end" = Some v -> is_dict v = true) ->
  exists o, line_range r = Ok o.
Proof.
  intros Hdict. unfold line_range.
  assert (exists s, from_option id (JDict ∅) (r !! "start") = JDict s) as [s ->].
  { destruct (r !! "start") as [v|]; [|by eexists].
    specialize (Hdict v (or_introl eq_refl)). destruct v; try done. by eexists. }
  assert (exists e, from_option id (JDict ∅) (r !! "end") = JDict e) as [e ->].
  { destruct (r !! "end") as [v|]; [|by eexists].
    specialize (Hdict v (or_intror eq_refl)). destruct v; try done. by eexists. }
  cbn [py_contains py_getitem bind].
  destruct (s !! "line") as [sl|]; [|by eexists].
  change (bool_decide (is_Some (Some sl))) with true. cbn [bind].
  destruct (e !! "line") as [el|]; by eexists.
Qed.

Lemma transform_symbol_result_total (d : gmap str json) :
  well_typed d -> exists d', transform_symbol_result (JDict d) = Ok (JDict d').
Proof.
  intros (Hname & Hrange & Hfile). unfold transform_symbol_result.
  assert (exists d1, restore_name (JDict d) = Ok (JDict d1)) as [d1 H1].
  { rewrite restore_name_dict. destruct (d !! "name"); [by eexists|].
    destruct (d !! "name_path") as [v|]; [|by eexists].
    destruct (Hname eq_refl v eq_refl) as [p ->]. by eexists. }
  destruct (restore_name_writes _ _ H1) as (? & [= <-] & K1).
  rewrite H1. cbn [bind].
  assert (exists d2, kind_to_string (JDict d1) = Ok (JDict d2)) as [d2 H2].
  { rewrite kind_to_string_dict. destruct (d1 !! "kind") as [v|]; [|by eexists].
    destruct (as_int v); by eexists. }
  destruct (kind_to_string_writes _ _ H2) as (? & [= <-] & K2).
  rewrite H2. cbn [bind].
  assert (exists d3, transform_range (JDict d2) = Ok (JDict d3)) as [d3 H3].
  { rewrite transform_range_dict.
    assert (d2 !! "range" = d !! "range") as -> by (rewrite K2, K1; done).
    destruct (d !! "range") as [[| | | | | |r]|] eqn:Hr;
      try (destruct (d2 !! "body_location") as [[]|]; by eexists).
    destruct (line_range_ok r (fun v => Hrange r v eq_refl)) as [o ->].
    by eexists. }
  destruct (transform_range_writes _ _ H3) as (? & [= <-] & K3).
  rewrite H3. cbn [bind].
  assert (exists d4, ensure_file (JDict d3) = Ok (JDict d4) /\
                     d4 !! "file"
                       = from_option Some (d !! "file") (d !! "relative_path"))
    as (d4 & H4 & Hf4).
  { rewrite ensure_file_dict.
    assert (d3 !! "relative_path" = d !! "relative_path") as Hrp
      by (rewrite K3, K2, K1; done).
    assert (d3 !! "file" = d !! "file") as Hf by (rewrite K3, K2, K1; done).
    rewrite Hrp. destruct (d !! "relative_path") as [v|]; eexists; (split; [done|]).
    - apply lookup_insert_eq.
    - exact Hf. }
  destruct (ensure_file_writes _ _ H4) as (? & [= <-] & K4).
  rewrite H4. cbn [bind]. rewrite guess_language_dict.
  assert (d4 !! "language" = d !! "language") as ->
    by (rewrite K4, K3, K2, K1; done).
  destruct (d !! "language"); [by eexists|]. rewrite Hf4.
  destruct (from_option Some (d !! "file") (d !! "relative_path")) as [v|];
    [|by eexists].
  destruct (Hfile eq_refl v eq_refl) as [file ->]. by eexists.
Qed.

(** * Further properties of the normalizer *)

(** ** The file and the language *)

Lemma normalization_file (d d1 d2 d3 d4 d5 : gmap str json) :
  normalization d d1 d2 d3 d4 d5 ->
  d4 !! "file" = effective_file d /\ d5 !! "file" = d4 !! "file" /\
  d4 !! "language" = d !! "language".
Proof.
  intros N.
  assert (forall k, k <> "name" -> k <> "kind" -> k <> "range" ->
                    d3 !! k = d !! k) as K3.
  { intros k ???. rewrite (keep_range _ _ _ _ _ _ N), (keep_kind _ _ _ _ _ _ N),
      (keep_name _ _ _ _ _ _ N); done. }
  split; [|split].
  - pose proof (step_file _ _ _ _ _ _ N) as H4. rewrite ensure_file_dict in H4.
    unfold effective_file. rewrite <- (K3 "relative_path"), <- (K3 "file") by done.
    revert H4. destruct (d3 !! "relative_path") as [v|]; intros [= <-]; [|done].
    apply lookup_insert_eq.
  - by apply (keep_language _ _ _ _ _ _ N).
  - rewrite (keep_file _ _ _ _ _ _ N), K3; done.
Qed.

(** X1.  After normalization [file] is the [relative_path] of the record
    when it has one, also over a [file] it came with, and the [file] it came
    with otherwise. *)
Theorem file_from_relative_path (d : gmap str json) (out : json) :
  transform_symbol_result (JDict d) = Ok out ->
  exists d', out = JDict d' /\
    d' !! "file" =
      match d !! "relative_path" with
      | Some path => Some path
      | None => d !! "file"
      end.
Proof.
  intros (d1 & d2 & d3 & d4 & d5 & -> & N)%transform_symbol_result_normalization.
  exists d5. split; [done|].
  destruct (normalization_file _ _ _ _ _ _ N) as (H4 & -> & _). rewrite H4.
  unfold effective_file. by destruct (d !! "relative_path").
Qed.

(** A record with a [file] of its own and another [relative_path]. *)
Lemma file_from_relative_path_witness :
  let item : gmap str json :=
    <["file":=JStr "old.txt"]> (<["relative_path":=JStr "src/new.txt"]>
      {[ "language" := JStr "text" ]}) in
  let after : gmap str json := <["file":=JStr "src/new.txt"]> item in
  transform_symbol_result (JDict item) = Ok (JDict after) /\
  after !! "file" = Some (JStr "src/new.txt").
Proof.
  intros item after.
  assert (transform_symbol_result (JDict item) = Ok (JDict after)) as H
    by (by vm_compute).
  split; [exact H|].
  destruct (file_from_relative_path _ _ H) as (d' & [= <-] & Hfile).
  exact Hfile.
Defined.

(** The language of a record after step 5. *)
Lemma normalization_language (d d1 d2 d3 d4 d5 : gmap str json) :
  normalization d d1 d2 d3 d4 d5 ->
  d5 !! "language" =
    match d !! "language" with
    | Some v => Some v
    | None =>
        match effective_file d with
        | Some (JStr file) => JStr <$> language_of_file file
        | _ => None
        end
    end.
Proof.
  intros N. destruct (normalization_file _ _ _ _ _ _ N) as (Hf & _ & Hl).
  pose proof (step_language _ _ _ _ _ _ N) as H5.
  rewrite guess_language_dict, Hf in H5. rewrite <- Hl. revert H5.
  destruct (d4 !! "language") as [v|] eqn:Hv; [by intros [= <-]|].
  destruct (effective_file d) as [[| | | |file| |]|]; try done.
  - destruct (language_of_file file) as [l|]; cbn [from_option fmap option_fmap
      option_map]; intros [= <-]; [apply lookup_insert_eq | done].
  - by intros [= <-].
Qed.

(** Where two splits of a text at a separator agree. *)
Lemma app_separator_unique (sep : N) (l1 l2 r1 r2 : list N) :
  sep ∉ l1 -> sep ∉ l2 ->
  (r1 = [] \/ exists t, r1 = sep :: t) ->
  (r2 = [] \/ exists t, r2 = sep :: t) ->
  l1 ++ r1 = l2 ++ r2 -> l1 = l2.
Proof.
  revert l2. induction l1 as [|a l1 IH]; intros [|b l2] H1 H2 Hr1 Hr2 Heq;
    cbn [app] in Heq.
  - done.
  - destruct Hr1 as [->|[t ->]]; [done|]. injection Heq as <- _.
    by apply not_elem_of_cons in H2 as [? _].
  - destruct Hr2 as [->|[t ->]]; [done|]. injection Heq as -> _.
    by apply not_elem_of_cons in H1 as [? _].
  - injection Heq as -> Heq. f_equal.
    apply not_elem_of_cons in H1 as [_ H1]. apply not_elem_of_cons in H2 as [_ H2].
    by apply (IH l2).
Qed.

Lemma reverse_directory_prefix (sep : N) (pre : str) :
  pre = EmptyStr \/ (exists q, pre = q +:+ Str sep EmptyStr) ->
  reverse (chars pre) = [] \/ exists t, reverse (chars pre) = sep :: t.
Proof.
  intros [->|[q ->]]; [by left|]. right. exists (reverse (chars q)).
  rewrite chars_app. change (chars (Str sep "")) with [sep].
  by rewrite reverse_app.
Qed.

Lemma last_segment_unique (sep : N) (p seg1 seg2 : str) :
  last_segment_of sep p seg1 -> last_segment_of sep p seg2 -> seg1 = seg2.
Proof.
  intros (H1 & pre1 & Hp1 & Hpre1) (H2 & pre2 & Hp2 & Hpre2).
  apply chars_inj.
  rewrite <- (reverse_involutive (chars seg1)), <- (reverse_involutive (chars seg2)).
  f_equal.
  apply (app_separator_unique sep _ _ (reverse (chars pre1)) (reverse (chars pre2))).
  - by rewrite elem_of_reverse.
  - by rewrite elem_of_reverse.
  - by apply reverse_directory_prefix.
  - by apply reverse_directory_prefix.
  - rewrite <- !reverse_app, <- !chars_app. by rewrite <- Hp1, <- Hp2.
Qed.

Lemma last_dot_suffix_none (l : list N) :
  "."%cp ∉ l -> last_dot_suffix l = None.
Proof.
  induction l as [|c l IH]; [done|].
  intros [Hc Hl]%not_elem_of_cons. cbn [last_dot_suffix]. rewrite IH by done.
  destruct (N.eqb_spec c "."%cp); [congruence | done].
Qed.

Lemma last_dot_suffix_app (x e : list N) :
  "."%cp ∉ e -> last_dot_suffix (x ++ "."%cp :: e) = Some ("."%cp :: e).
Proof.
  intros He. induction x as [|c x IH]; cbn [app last_dot_suffix].
  - by rewrite last_dot_suffix_none.
  - by rewrite IH.
Qed.

Lemma drop_dots_app (stem l : list N) :
  (exists c, c ∈ stem /\ c <> "."%cp) ->
  exists x, drop_dots (stem ++ l) = x ++ l.
Proof.
  induction stem as [|a stem IH]; intros (c & Hin & Hc).
  - by apply elem_of_nil in Hin.
  - destruct (decide (a = "."%cp)) as [->|Ha].
    + apply elem_of_cons in Hin as [->|Hin]; [done|].
      cbn [app drop_dots]. rewrite N.eqb_refl. apply IH. by exists c.
    + exists (a :: stem). cbn [app drop_dots].
      by rewrite (proj2 (N.eqb_neq _ _) Ha).
Qed.

Lemma drop_dots_all (dots rest : list N) :
  Forall (fun c => c = "."%cp) dots -> "."%cp ∉ rest ->
  drop_dots (dots ++ rest) = rest.
Proof.
  intros Hdots Hrest. induction Hdots as [|c dots -> _ IH]; cbn [app].
  - destruct rest as [|a rest]; [done|].
    apply not_elem_of_cons in Hrest as [Ha _]. cbn [drop_dots].
    rewrite (proj2 (N.eqb_neq _ _) (not_eq_sym Ha)). done.
  - cbn [drop_dots]. rewrite N.eqb_refl. exact IH.
Qed.

(** The last component of a path that is given with its directory. *)
Lemma last_component (dir component : str) :
  is_directory_prefix dir -> "/"%cp ∉ chars component ->
  List.last (split_on "/"%cp (dir +:+ component)) EmptyStr = component.
Proof.
  intros Hdir Hfree.
  apply (last_segment_unique "/"%cp (dir +:+ component)); [apply split_on_last|].
  split; [done|]. by exists dir.
Qed.

Lemma splitext_ext_extension (dir stem e : str) :
  is_directory_prefix dir ->
  "/"%cp ∉ chars stem -> "/"%cp ∉ chars e -> "."%cp ∉ chars e ->
  (exists c, c ∈ chars stem /\ c <> "."%cp) ->
  splitext_ext (dir +:+ stem +:+ "." +:+ e) = "." +:+ e.
Proof.
  intros Hdir Hstem He Hdot Hc. unfold splitext_ext.
  rewrite last_component; [|done|].
  - rewrite !chars_app. change (chars "." ++ chars e) with ("."%cp :: chars e).
    destruct (drop_dots_app (chars stem) ("."%cp :: chars e) Hc) as [x ->].
    rewrite last_dot_suffix_app by done.
    apply chars_inj. by rewrite chars_text, chars_app.
  - rewrite !chars_app, !not_elem_of_app. change (chars ".") with ["."%cp].
    split; [done|]. split; [|done].
    rewrite list_elem_of_singleton. discriminate.
Qed.

Lemma splitext_ext_none (dir dots rest : str) :
  is_directory_prefix dir ->
  Forall (fun c => c = "."%cp) (chars dots) ->
  "/"%cp ∉ chars rest -> "."%cp ∉ chars rest ->
  splitext_ext (dir +:+ dots +:+ rest) = EmptyStr.
Proof.
  intros Hdir Hdots Hslash Hdot. unfold splitext_ext.
  rewrite last_component; [|done|].
  - by rewrite chars_app, drop_dots_all, last_dot_suffix_none.
  - rewrite chars_app, not_elem_of_app. split; [|done].
    intros Hin. eapply Forall_forall in Hdots; [|exact Hin]. discriminate.
Qed.

Lemma language_of_file_extension (dir stem e : str) :
  is_directory_prefix dir ->
  "/"%cp ∉ chars stem -> "/"%cp ∉ chars e -> "."%cp ∉ chars e ->
  (exists c, c ∈ chars stem /\ c <> "."%cp) ->
  language_of_file (dir +:+ stem +:+ "." +:+ e) = language_of_extension e.
Proof.
  intros. unfold language_of_file, language_of_extension.
  rewrite splitext_ext_extension by done.
  change ("." +:+ e) with (Str "."%cp e).
  repeat (case_bool_decide; simplify_eq; try done).
Qed.

(** A closed decidable statement, by evaluation. *)
Ltac decide_closed :=
  match goal with |- ?P => apply (bool_decide_unpack P); by vm_compute end.

(** X2.  A record without [language] whose file is [dir/stem.e], with a
    stem that is not made of dots only, gets the language of the extension
    [e]: python, typescript, javascript or java for [py], [ts], [js] or
    [java], and none for any other extension. *)
Theorem language_from_extension (d : gmap str json) (out : json)
    (dir stem e : str) :
  transform_symbol_result (JDict d) = Ok out ->
  d !! "language" = None ->
  effective_file d = Some (JStr (dir +:+ stem +:+ "." +:+ e)) ->
  is_directory_prefix dir ->
  "/"%cp ∉ chars stem -> "/"%cp ∉ chars e -> "."%cp ∉ chars e ->
  (exists c, c ∈ chars stem /\ c <> "."%cp) ->
  exists d', out = JDict d' /\
    d' !! "language" = JStr <$> language_of_extension e.
Proof.
  intros (d1 & d2 & d3 & d4 & d5 & -> & N)%transform_symbol_result_normalization
    Hlang Hfile Hdir Hstem He Hdot Hc.
  exists d5. split; [done|].
  rewrite (normalization_language _ _ _ _ _ _ N), Hlang, Hfile.
  by rewrite language_of_file_extension.
Qed.

Lemma language_from_extension_witness :
  transform_symbol_result (JDict test_item) = Ok (JDict test_item_normalized) /\
  test_item !! "language" = None /\
  effective_file test_item = Some (JStr ("src/" +:+ "foo" +:+ "." +:+ "py")) /\
  test_item_normalized !! "language" = Some (JStr "python").
Proof.
  assert (is_directory_prefix "src/") as Hdir by (right; by exists "src").
  assert ("/"%cp ∉ chars "foo") as Hstem by decide_closed.
  assert ("/"%cp ∉ chars "py") as He by decide_closed.
  assert ("."%cp ∉ chars "py") as Hdot by decide_closed.
  assert (exists c, c ∈ chars "foo" /\ c <> "."%cp) as Hc.
  { exists "f"%cp. split; [by left | discriminate]. }
  split; [exact test_item_result|]. split; [reflexivity|]. split; [reflexivity|].
  destruct (language_from_extension _ _ "src/" "foo" "py" test_item_result
              eq_refl eq_refl Hdir Hstem He Hdot Hc) as (d' & [= <-] & H).
  exact H.
Defined.

(** X3.  A [language] the record comes with is kept whatever its file; and
    no language is made up for a record without file, nor for a file whose
    name has no extension, such as [Makefile], or is a dot file, such as
    [.gitignore] or [.py]. *)
Theorem language_not_guessed (d : gmap str json) (out : json) :
  transform_symbol_result (JDict d) = Ok out ->
  exists d', out = JDict d' /\
    match d !! "language" with
    | Some v => d' !! "language" = Some v
    | None =>
        (effective_file d = None -> d' !! "language" = None) /\
        (forall dir dots rest,
           effective_file d = Some (JStr (dir +:+ dots +:+ rest)) ->
           is_directory_prefix dir ->
           Forall (fun c => c = "."%cp) (chars dots) ->
           "/"%cp ∉ chars rest -> "."%cp ∉ chars rest ->
           d' !! "language" = None)
    end.
Proof.
  intros (d1 & d2 & d3 & d4 & d5 & -> & N)%transform_symbol_result_normalization.
  exists d5. split; [done|].
  rewrite (normalization_language _ _ _ _ _ _ N).
  destruct (d !! "language"); [done|]. split.
  - by intros ->.
  - intros dir dots rest -> Hdir Hdots Hslash Hdot.
    unfold language_of_file. by rewrite splitext_ext_none.
Qed.

Lemma language_not_guessed_witness :
  let item : gmap str json := {[ "relative_path" := JStr "conf/.py" ]} in
  let after : gmap str json := <["file":=JStr "conf/.py"]> item in
  transform_symbol_result (JDict item) = Ok (JDict after) /\
  after !! "language" = None.
Proof.
  intros item after.
  assert (transform_symbol_result (JDict item) = Ok (JDict after)) as H
    by (by vm_compute).
  split; [exact H|].
  destruct (language_not_guessed _ _ H) as (d' & [= <-] & _ & Hdot).
  apply (Hdot "conf/" "." "py").
  - reflexivity.
  - right. by exists "conf".
  - by repeat constructor.
  - decide_closed.
  - decide_closed.
Defined.

(** ** What the normalizer keeps, and how it fails *)

Lemma insert_unless_None (K : str) (o : option json)
    (d : gmap str json) (k : str) :
  is_Some (d !! k) ->
  is_Some (from_option (fun v => <[K:=v]> d) d o !! k).
Proof.
  intros H. destruct o as [v|]; cbn [from_option]; [|done].
  rewrite lookup_insert_is_Some. destruct (decide (K = k)); [by left | by right].
Qed.

(** No step removes an entry. *)
Lemma normalization_keeps_keys (d d1 d2 d3 d4 d5 : gmap str json) (k : str) :
  normalization d d1 d2 d3 d4 d5 -> is_Some (d !! k) -> is_Some (d5 !! k).
Proof.
  intros N Hk.
  assert (is_Some (d1 !! k)) as H1.
  { pose proof (step_name _ _ _ _ _ _ N) as H. rewrite restore_name_dict in H.
    revert H. destruct (d !! "name"); [by intros [= <-]|].
    destruct (d !! "name_path") as [[]|]; intros [= <-]; try done.
    by apply (insert_unless_None "name" (Some _)). }
  assert (is_Some (d2 !! k)) as H2.
  { pose proof (step_kind _ _ _ _ _ _ N) as H. rewrite kind_to_string_dict in H.
    revert H. destruct (d1 !! "kind") as [v|]; [|by intros [= <-]].
    destruct (as_int v) as [n|]; [|by intros [= <-]].
    generalize (lower (get_symbol_kind_name n)). intros name [= <-].
    by apply (insert_unless_None "kind" (Some _)). }
  assert (is_Some (d3 !! k)) as H3.
  { pose proof (step_range _ _ _ _ _ _ N) as H. rewrite transform_range_dict in H.
    revert H. destruct (d2 !! "range") as [[| | | | | |r]|];
      try (destruct (d2 !! "body_location") as [[]|]; intros [= <-]; try done;
           by apply (insert_unless_None "range" (Some _))).
    destruct (line_range r) as [o|]; [|done]. cbn [bind]. intros [= <-].
    by apply insert_unless_None. }
  assert (is_Some (d4 !! k)) as H4.
  { pose proof (step_file _ _ _ _ _ _ N) as H. rewrite ensure_file_dict in H.
    revert H. destruct (d3 !! "relative_path"); intros [= <-]; [|done].
    by apply (insert_unless_None "file" (Some _)). }
  pose proof (step_language _ _ _ _ _ _ N) as H. rewrite guess_language_dict in H.
  revert H. destruct (d4 !! "language"); [by intros [= <-]|].
  destruct (d4 !! "file") as [[| | | |file| |]|]; intros [= <-]; try done.
  destruct (language_of_file file); cbn [from_option]; [|done].
  by apply (insert_unless_None "language" (Some _)).
Qed.

(** X4.  The normalizer keeps every field it does not know: an entry under
    a key other than [name], [kind], [range], [file] and [language] comes
    out as it went in, and no entry at all is removed. *)
Theorem other_fields_kept (d : gmap str json) (out : json) :
  transform_symbol_result (JDict d) = Ok out ->
  exists d', out = JDict d' /\
    (forall k, k ∉ written_keys -> d' !! k = d !! k) /\
    (forall k, is_Some (d !! k) -> is_Some (d' !! k)).
Proof.
  intros (d1 & d2 & d3 & d4 & d5 & -> & N)%transform_symbol_result_normalization.
  exists d5. split; [done|]. split.
  - intros k Hk. unfold written_keys in Hk.
    rewrite !not_elem_of_cons in Hk. destruct Hk as (? & ? & ? & ? & ? & _).
    rewrite (keep_language _ _ _ _ _ _ N), (keep_file _ _ _ _ _ _ N),
      (keep_range _ _ _ _ _ _ N), (keep_kind _ _ _ _ _ _ N),
      (keep_name _ _ _ _ _ _ N); done.
  - intros k. by apply (normalization_keeps_keys _ _ _ _ _ _ _ N).
Qed.

Lemma other_fields_kept_witness :
  transform_symbol_result (JDict test_item) = Ok (JDict test_item_normalized) /\
  test_item_normalized !! "body_location" = test_item !! "body_location" /\
  is_Some (test_item_normalized !! "kind").
Proof.
  split; [exact test_item_result|].
  destruct (other_fields_kept _ _ test_item_result) as (d' & [= <-] & Hkeep & Hdom).
  split.
  - apply Hkeep. decide_closed.
  - apply Hdom. by eexists.
Defined.

Lemma py_contains_raises (key : str) (c : json) (e : exn) :
  py_contains key c = Raise e -> e = TypeError.
Proof. destruct c; cbn [py_contains]; by intros [= <-]. Qed.

Lemma py_getitem_guarded (key : str) (c : json) (e : exn) :
  py_contains key c = Ok true -> py_getitem c key = Raise e -> e = TypeError.
Proof.
  destruct c as [| | | | | |m]; cbn [py_contains py_getitem];
    try (by intros _ [= <-]).
  destruct (m !! key) as [v|]; [done|].
  by change (bool_decide (is_Some (@None json))) with false.
Qed.

Lemma line_range_raises (r : gmap str json) (e : exn) :
  line_range r = Raise e -> e = TypeError.
Proof.
  unfold line_range.
  set (start := from_option id (JDict ∅) (r !! "start")).
  set (end_ := from_option id (JDict ∅) (r !! "end")).
  destruct (py_contains "line" start) as [[]|e1] eqn:Hs; cbn [bind].
  - destruct (py_contains "line" end_) as [[]|e2] eqn:He; cbn [bind].
    + destruct (py_getitem start "line") as [sl|e3] eqn:Hsl; cbn [bind].
      * destruct (py_getitem end_ "line") as [el|e4] eqn:Hel; cbn [bind];
          [done|]. intros [= <-]. by apply (py_getitem_guarded "line" end_).
      * intros [= <-]. by apply (py_getitem_guarded "line" start).
    + done.
    + intros [= <-]. by apply (py_contains_raises "line" end_).
  - done.
  - intros [= <-]. by apply (py_contains_raises "line" start).
Qed.

(** X5.  On a record the normalizer raises in two ways only, and never
    with [KeyError], every [item[key]] being behind a membership test:
    [AttributeError] when the name is to be derived from a [name_path] that
    is not a string, and [TypeError]. *)
Theorem normalizer_errors (d : gmap str json) (e : exn) :
  transform_symbol_result (JDict d) = Raise e ->
  (e = AttributeError /\ d !! "name" = None /\
   exists v, d !! "name_path" = Some v /\ forall s, v <> JStr s) \/
  e = TypeError.
Proof.
  unfold transform_symbol_result. intros H.
  destruct (restore_name (JDict d)) as [o1|e1] eqn:H1.
  - destruct (restore_name_writes _ _ H1) as (d1 & -> & _). cbn [bind] in H.
    destruct (kind_to_string (JDict d1)) as [o2|e2] eqn:H2.
    + destruct (kind_to_string_writes _ _ H2) as (d2 & -> & _). cbn [bind] in H.
      destruct (transform_range (JDict d2)) as [o3|e3] eqn:H3.
      * destruct (transform_range_writes _ _ H3) as (d3 & -> & _). cbn [bind] in H.
        destruct (ensure_file (JDict d3)) as [o4|e4] eqn:H4.
        -- destruct (ensure_file_writes _ _ H4) as (d4 & -> & _). cbn [bind] in H.
           rewrite guess_language_dict in H. right. revert H.
           destruct (d4 !! "language"); [done|].
           destruct (d4 !! "file") as [[]|]; by intros [= <-].
        -- rewrite ensure_file_dict in H4.
           by destruct (d3 !! "relative_path").
      * cbn [bind] in H. injection H as <-. right.
        rewrite transform_range_dict in H3. revert H3.
        destruct (d2 !! "range") as [[| | | | | |r]|];
          try (by destruct (d2 !! "body_location") as [[]|]).
        destruct (line_range r) as [o|e'] eqn:Hr; [done|]. cbn [bind].
        intros [= <-]. by apply (line_range_raises r).
    + rewrite kind_to_string_dict in H2. revert H2.
      destruct (d1 !! "kind") as [v|]; [|done]. by destruct (as_int v).
  - cbn [bind] in H. injection H as <-. left.
    rewrite restore_name_dict in H1. revert H1.
    destruct (d !! "name"); [done|].
    destruct (d !! "name_path") as [v|]; [|done].
    destruct v; try done; intros [= <-]; (split; [done|]); (split; [done|]);
      eexists; (split; [done|]); done.
Qed.

Lemma normalizer_errors_witness :
  let item : gmap str json := {[ "name_path" := JInt 3 ]} in
  transform_symbol_result (JDict item) = Raise AttributeError /\
  item !! "name" = None /\ item !! "name_path" = Some (JInt 3).
Proof.
  intros item.
  assert (transform_symbol_result (JDict item) = Raise AttributeError) as H
    by (by vm_compute).
  split; [exact H|].
  destruct (normalizer_errors _ _ H) as [(_ & Hname & v & Hv & _)|Hneq];
    [|discriminate].
  split; [exact Hname | reflexivity].
Defined.

(** X6.  The normalizer returns on every well-typed record: missing
    entries are passed over, they are no errors. *)
Theorem normalizer_returns (d : gmap str json) :
  well_typed d -> exists d', transform_symbol_result (JDict d) = Ok (JDict d').
Proof. exact (transform_symbol_result_total d). Qed.

(** The record of the test suite with a range: a [name_path] the name is
    derived from, a range whose two ends are mappings, and a path whose
    extension is looked at. *)
Lemma normalizer_returns_witness :
  let item : gmap str json :=
    <["range":=JDict (<["start":=JDict {[ "line" := JInt 3 ]}]>
                      {[ "end" := JDict {[ "line" := JInt 9 ]} ]})]> test_item in
  well_typed item /\
  (exists d', transform_symbol_result (JDict item) = Ok (JDict d')) /\
  transform_symbol_result (JDict item)
    = Ok (JDict (<["name":=JStr "my_method"]>
                 (<["kind":=JStr "method"]>
                 (<["range":=lines (JInt 3) (JInt 9)]>
                 (<["file":=JStr "src/foo.py"]>
                 (<["language":=JStr "python"]> item)))))).
Proof.
  intros item.
  assert (well_typed item) as Hwt.
  { split; [|split].
    - intros _ v Hv. vm_compute in Hv. injection Hv as <-. by eexists.
    - intros r v Hr Hv. vm_compute in Hr. injection Hr as <-.
      destruct Hv as [Hv|Hv]; vm_compute in Hv; by injection Hv as <-.
    - intros _ v Hv. vm_compute in Hv. injection Hv as <-. by eexists. }
  split; [exact Hwt|]. split; [exact (normalizer_returns item Hwt)|].
  by vm_compute.
Defined.

(** * Further properties of the command pipeline *)





Lemma filter_result_sublist {A : Type} (f : A -> result bool) (l l' : list A) :
  filter_result f l = Ok l' -> l' `sublist_of` l.
Proof.
  revert l'. induction l as [|x l IH]; intros l'; cbn [filter_result].
  - by intros [= <-].
  - intros (keep & _ & (ys & Hys & [= <-])%bind_Ok)%bind_Ok.
    destruct keep; [by apply sublist_skip, IH | by apply sublist_cons, IH].
Qed.

Lemma limit_results_sublist (q : query) (l : list json) :
  limit_results q l `sublist_of` l.
Proof.
  destruct q as [name language [n|]| |]; cbn [limit_results]; try done.
  destruct (n =? 0); [done|]. apply sublist_take.
Qed.

(** X9.  Filtering and limiting neither add nor reorder anything: the
    records of the result are normalized records, in their order, and with
    a positive limit [n] there are at most [n] of them. *)
Theorem results_subsequence (q : query) (parsed normalized out : list json) :
  map_result transform_symbol_result parsed = Ok normalized ->
  results q parsed = Ok out ->
  out `sublist_of` normalized /\
  forall name language n,
    q = find_symbol name language (Some n) -> 0 < n ->
    (length out <= Z.to_nat n)%nat.
Proof.
  intros Hn Hr. unfold results in Hr. rewrite Hn in Hr. cbn [bind] in Hr.
  apply bind_Ok in Hr as (filtered & Hf & [= <-]). split.
  - etrans; [apply limit_results_sublist|].
    destruct q as [name [language|] limit| |]; cbn [filter_language] in Hf;
      try (by injection Hf as <-).
    case_bool_decide; [by injection Hf as <-|].
    by apply (filter_result_sublist _ _ _ Hf).
  - intros name language n -> Hpos. cbn [limit_results].
    destruct (Z.eqb_spec n 0) as [->|_]; [lia|].
    unfold py_slice_to. destruct (Z.ltb_spec n 0); [lia|].
    rewrite length_take. lia.
Qed.

Lemma results_subsequence_witness :
  let q := find_symbol "whatever" (Some "TypeScript") (Some 1) in
  let parsed := [JDict foo_item; JDict bar_item] in
  map_result transform_symbol_result parsed
    = Ok [JDict foo_normalized; JDict bar_normalized] /\
  results q parsed = Ok [JDict bar_normalized] /\
  [JDict bar_normalized] `sublist_of` [JDict foo_normalized; JDict bar_normalized].
Proof.
  intros q parsed.
  assert (map_result transform_symbol_result parsed
          = Ok [JDict foo_normalized; JDict bar_normalized]) as Hn
    by (by vm_compute).
  assert (results q parsed = Ok [JDict bar_normalized]) as Hr by (by vm_compute).
  split; [exact Hn|]. split; [exact Hr|].
  exact (proj1 (results_subsequence _ _ _ _ Hn Hr)).
Defined.

Lemma print_rows_prefix (row : json -> result (list printed))
    (items : list json) :
  (forall item rows, row item = Ok rows -> exists r, rows = [r]) ->
  exists printed_for rest,
    items = printed_for ++ rest /\
    Forall2 (fun item r => row item = Ok [r])
      printed_for (print_rows row items).1 /\
    match (print_rows row items).2 with
    | None => rest = []
    | Some e => exists item rest', rest = item :: rest' /\ row item = Raise e
    end.
Proof.
  intros Hone. induction items as [|item items IH].
  - exists [], []. by repeat split.
  - cbn [print_rows]. destruct (row item) as [rows|e] eqn:Hrow.
    + destruct (Hone _ _ Hrow) as [r ->].
      destruct IH as (printed_for & rest & -> & Hrows & Hraised).
      destruct (print_rows row (printed_for ++ rest)) as [out raised].
      cbn [fst snd app] in *.
      exists (item :: printed_for), rest.
      split; [done|]. split; [by constructor|done].
    + exists [], (item :: items). cbn [fst snd].
      split; [done|]. split; [constructor|]. by exists item, items.
Qed.

Lemma find_symbol_row_one (item : json) (rows : list printed) :
  find_symbol_row item = Ok rows -> exists r, rows = [r].
Proof.
  unfold find_symbol_row.
  intros (name & _ & (kind & _ & (file & _ & (range & _ &
    (start_line & _ & H)%bind_Ok)%bind_Ok)%bind_Ok)%bind_Ok)%bind_Ok.
  destruct (_ && _); [injection H as <-; by eexists|done].
Qed.

Lemma file_overview_row_one (item : json) (rows : list printed) :
  file_overview_row item = Ok rows -> exists r, rows = [r].
Proof.
  unfold file_overview_row.
  intros (name & _ & (kind & _ & (range & _ &
    (start_line & _ & H)%bind_Ok)%bind_Ok)%bind_Ok)%bind_Ok.
  destruct (_ && _); [injection H as <-; by eexists|done].
Qed.

(** X10.  In text mode find-symbol and file-overview print one row, that
    is, call [print] once, for each record of a list that is not empty,
    in the order of the list: the rows on the output are the rows of the
    records, one for one.  When a record makes the printing raise, the
    rows printed are those of the records before it, and the exception is
    the one its row raises. *)
Theorem text_rows_per_record (a : args) (output_data : list json) :
  format a = Text -> one_row_per_record (query_command a) = true ->
  output_data <> [] ->
  exists printed_for rest,
    output_data = printed_for ++ rest /\
    Forall2 (fun item r => text_row (query_command a) item = Ok [r])
      printed_for (print_output a output_data).1 /\
    match (print_output a output_data).2 with
    | None => rest = []
    | Some e =>
        exists item rest',
          rest = item :: rest' /\ text_row (query_command a) item = Raise e
    end.
Proof.
  intros Hfmt Hq Hne. unfold print_output. rewrite Hfmt.
  destruct output_data as [|item items]; [done|]. cbn [is_empty app].
  destruct (query_command a) as [name language limit|path|name path];
    [| |done]; cbn [text_row].
  - pose proof (print_rows_prefix find_symbol_row (item :: items)
                  find_symbol_row_one) as H.
    by destruct (print_rows find_symbol_row (item :: items)).
  - pose proof (print_rows_prefix file_overview_row (item :: items)
                  file_overview_row_one) as H.
    by destruct (print_rows file_overview_row (item :: items)).
Qed.

(** Three records, the second of which is no mapping: the row of the
    first is printed, and nothing after it. *)
Lemma text_rows_per_record_witness :
  let a := {| format := Text; query_command := find_symbol "x" None None |} in
  let output_data := [JDict foo_normalized; JInt 3; JDict bar_normalized] in
  format a = Text /\ output_data <> [] /\
  print_output a output_data
    = ([SymbolRow (JStr "foo") (JStr "method") (JStr "src/foo.py") (JStr "?")],
       Some AttributeError) /\
  exists printed_for rest,
    output_data = printed_for ++ rest /\
    Forall2 (fun item r => text_row (query_command a) item = Ok [r])
      printed_for (print_output a output_data).1 /\
    match (print_output a output_data).2 with
    | None => rest = []
    | Some e =>
        exists item rest',
          rest = item :: rest' /\ text_row (query_command a) item = Raise e
    end.
Proof.
  intros a output_data.
  assert (output_data <> []) as Hne by done.
  split; [reflexivity|]. split; [exact Hne|]. split; [by vm_compute|].
  exact (text_rows_per_record a output_data eq_refl eq_refl Hne).
Defined.

(** X11.  The letter case of the language hint does not matter: two hints
    that differ by case only select the same records. *)
Theorem language_hint_case (name1 name2 L1 L2 : str)
    (limit1 limit2 : option Z) (output_data : list json) :
  lower L1 = lower L2 ->
  filter_language (find_symbol name1 (Some L1) limit1) output_data
    = filter_language (find_symbol name2 (Some L2) limit2) output_data.
Proof.
  intros Hlower. cbn [filter_language]. rewrite Hlower.
  repeat case_bool_decide; try done; subst.
  - symmetry in Hlower. by apply lower_empty in Hlower.
  - by apply lower_empty in Hlower.
Qed.

Lemma language_hint_case_witness :
  lower "Python" = lower "PYTHON" /\
  filter_language (find_symbol "a" (Some "Python") None)
    [JDict foo_normalized; JDict bar_normalized]
  = filter_language (find_symbol "a" (Some "PYTHON") None)
      [JDict foo_normalized; JDict bar_normalized].
Proof.
  assert (lower "Python" = lower "PYTHON") as H by reflexivity.
  split; [exact H|].
  exact (language_hint_case "a" "a" "Python" "PYTHON" None None _ H).
Defined.

(** * Properties of the server command *)

Lemma extend_unless_given_form (flag value : str) (l : list str) :
  extend_unless_given flag value l =
  l ++ (if bool_decide (flag ∈ l) then [] else [flag; value]).
Proof.
  unfold extend_unless_given. case_bool_decide; by rewrite ?app_nil_r.
Qed.

Lemma elem_of_app_pair (x flag value : str) (l : list str) (b : bool) :
  x <> flag -> x <> value ->
  x ∈ l ++ (if b then [] else [flag; value]) <-> x ∈ l.
Proof.
  intros Hf Hv. rewrite elem_of_app.
  destruct b; rewrite ?elem_of_cons, ?elem_of_nil; intuition congruence.
Qed.

Lemma extend_unless_given_flag (flag value : str) (l : list str) :
  flag ∈ extend_unless_given flag value l.
Proof.
  unfold extend_unless_given. case_bool_decide; [done|].
  rewrite elem_of_app, !elem_of_cons. by right; left.
Qed.

Lemma extend_unless_given_again (flag value : str) (l : list str) :
  flag ∈ l -> extend_unless_given flag value l = l.
Proof. intros H. unfold extend_unless_given. by rewrite bool_decide_eq_true_2. Qed.

(** X12.  The server arguments are those of the command, in their order,
    followed by [--project .], [--enable-web-dashboard False] and
    [--enable-gui-log-window False] for each of the three flags the command
    does not give itself; a flag it gives is not added again.  So the three
    flags are always there, and adding the defaults twice adds nothing. *)
Theorem default_flags_added (cmd_args : list str) :
  default_flags cmd_args =
    cmd_args
    ++ (if bool_decide ("--project" ∈ cmd_args) then [] else ["--project"; "."])
    ++ (if bool_decide ("--enable-web-dashboard" ∈ cmd_args) then []
        else ["--enable-web-dashboard"; "False"])
    ++ (if bool_decide ("--enable-gui-log-window" ∈ cmd_args) then []
        else ["--enable-gui-log-window"; "False"]) /\
  ("--project" ∈ default_flags cmd_args /\
   "--enable-web-dashboard" ∈ default_flags cmd_args /\
   "--enable-gui-log-window" ∈ default_flags cmd_args) /\
  default_flags (default_flags cmd_args) = default_flags cmd_args.
Proof.
  assert ("--project" ∈ default_flags cmd_args /\
          "--enable-web-dashboard" ∈ default_flags cmd_args /\
          "--enable-gui-log-window" ∈ default_flags cmd_args) as Hall.
  { unfold default_flags. split; [|split].
    - rewrite !extend_unless_given_form, !elem_of_app_pair by done.
      rewrite <- extend_unless_given_form. apply extend_unless_given_flag.
    - rewrite extend_unless_given_form, elem_of_app_pair by done.
      apply extend_unless_given_flag.
    - apply extend_unless_given_flag. }
  split; [|split; [exact Hall|]].
  - unfold default_flags. rewrite !extend_unless_given_form.
    set (project := if bool_decide ("--project" ∈ cmd_args) then []
                    else ["--project"; "."]).
    assert (bool_decide ("--enable-web-dashboard" ∈ cmd_args ++ project)
            = bool_decide ("--enable-web-dashboard" ∈ cmd_args)) as ->.
    { apply bool_decide_ext. subst project. by apply elem_of_app_pair. }
    set (dashboard := if bool_decide ("--enable-web-dashboard" ∈ cmd_args)
                      then [] else ["--enable-web-dashboard"; "False"]).
    assert (bool_decide ("--enable-gui-log-window"
                           ∈ (cmd_args ++ project) ++ dashboard)
            = bool_decide ("--enable-gui-log-window" ∈ cmd_args)) as ->.
    { apply bool_decide_ext. subst project dashboard.
      by rewrite !elem_of_app_pair. }
    by rewrite <- !app_assoc.
  - destruct Hall as (Hp & Hd & Hg). unfold default_flags at 1.
    by rewrite (extend_unless_given_again "--project" _ _ Hp),
      (extend_unless_given_again "--enable-web-dashboard" _ _ Hd),
      (extend_unless_given_again "--enable-gui-log-window" _ _ Hg).
Qed.

Lemma text_reverse_word (word : list N) :
  word <> [] -> Forall (fun c => is_space c = false) word ->
  is_word (text (reverse word)).
Proof.
  intros Hne Hword. split.
  - intros H. apply (f_equal chars) in H. rewrite chars_text in H.
    apply (f_equal reverse) in H. rewrite reverse_involutive in H. done.
  - rewrite chars_text. by apply Forall_reverse.
Qed.

Lemma split_words_are_words (l word : list N) :
  Forall (fun c => is_space c = false) word ->
  Forall is_word (split_words l word).
Proof.
  revert word. induction l as [|c l IH]; intros word Hword; cbn [split_words].
  - destruct word as [|a word]; [done|].
    constructor; [by apply text_reverse_word | done].
  - destruct (is_space c) eqn:Hc.
    + destruct word as [|a word]; [by apply IH|].
      constructor; [by apply text_reverse_word | by apply IH].
    + apply IH. by constructor.
Qed.

Lemma split_words_nil (l word : list N) :
  split_words l word = [] <->
  word = [] /\ Forall (fun c => is_space c = true) l.
Proof.
  revert word. induction l as [|c l IH]; intros word; cbn [split_words].
  - destruct word; [by split | split; [done | by intros [? _]]].
  - destruct (is_space c) eqn:Hc.
    + destruct word as [|a word].
      * rewrite IH. split; intros [? H]; (split; [done|]).
        -- by constructor.
        -- by inversion H.
      * split; [done | by intros [? _]].
    + rewrite IH. split; [by intros [? _]|].
      intros [_ H]. inversion H; congruence.
Qed.

(** X13.  The server command is the first word of the command text and
    the other words are its arguments, the defaults added.  A text without
    any word raises [IndexError], and no other text does; a command that is
    not found stops the client before anything is started.  Without
    [SERENA_SERVER_COMMAND] the command is [uvx]. *)
Theorem server_parameters_outcomes (which : str -> bool)
    (environ : option str) :
  let server_cmd_str := from_option id DEFAULT_SERVER_COMMAND environ in
  (is_blank server_cmd_str ->
     server_parameters which environ = Raise (OtherError "IndexError")) /\
  (~ is_blank server_cmd_str ->
     exists cmd cmd_args,
       py_split server_cmd_str = cmd :: cmd_args /\
       is_word cmd /\ Forall is_word cmd_args /\
       server_parameters which environ =
         Ok (if which cmd
             then StdioServerParameters cmd (default_flags cmd_args)
             else CommandNotFound cmd)) /\
  (environ = None ->
     server_parameters which environ =
       Ok (if which "uvx"
           then StdioServerParameters "uvx"
                  (default_flags
                     ["--from"; "git+https://github.com/oraios/serena";
                      "serena"; "start-mcp-server"])
           else CommandNotFound "uvx")).
Proof.
  cbv zeta. unfold server_parameters, is_blank, py_split. split; [|split].
  - intros Hblank.
    by rewrite (proj2 (split_words_nil _ []) (conj eq_refl Hblank)).
  - intros Hnot.
    pose proof (split_words_are_words
                  (chars (from_option id DEFAULT_SERVER_COMMAND environ)) []
                  (Forall_nil_2 _)) as Hwords.
    destruct (split_words _ []) as [|cmd cmd_args] eqn:Hsplit.
    + apply split_words_nil in Hsplit as [_ Hblank]. by destruct Hnot.
    + inversion Hwords; subst. exists cmd, cmd_args. repeat split; try done.
      * by apply (proj1 H1).
      * by apply (proj2 H1).
      * by destruct (which cmd).
  - intros ->. cbn [from_option id].
    assert (split_words (chars DEFAULT_SERVER_COMMAND) [] =
            ["uvx"; "--from"; "git+https://github.com/oraios/serena"; "serena";
             "start-mcp-server"]) as -> by (by vm_compute).
    by destruct (which "uvx").
Qed.

(** * Properties of the native client *)

Section NativeProperties.

Context {Agent Project : Type}.
Variable json_loads : str -> result json.
Variable env : environment Agent Project.
Variable lib : Native.library Agent Project.

(** What [ensure_agent] does to a client. *)
Lemma ensure_agent_outcome (self : SerenaClient Agent) :
  ensure_agent env self =
  match agent_obtained env self with
  | Some a =>
      (Ok tt, {| project_root := project_root self; agent := Some a |})
  | None => (Raise RuntimeError, self)
  end.
Proof.
  unfold ensure_agent, agent_obtained.
  destruct (SERENA_AVAILABLE env); cbn [negb]; [|done].
  destruct self as [root [a|]]; cbn [agent project_root]; [done|].
  unfold and_then, try_except, call, set_agent, raising.
  by destruct (new_agent env).
Qed.

(** X14.  [ensure_agent] raises nothing but [RuntimeError], and then it
    leaves the client as it was; when it returns the client holds an agent,
    the one it held before if it held one, and the same project root. *)
Theorem ensure_agent_keeps_agent (self : SerenaClient Agent) :
  match ensure_agent env self with
  | (Ok _, self') =>
      project_root self' = project_root self /\
      exists a, agent self' = Some a /\
                match agent self with Some a0 => a = a0 | None => True end
  | (Raise e, self') => e = RuntimeError /\ self' = self
  end.
Proof.
  rewrite ensure_agent_outcome. unfold agent_obtained.
  destruct (SERENA_AVAILABLE env); [|done].
  destruct (agent self) as [a0|]; [by split; [|exists a0]|].
  destruct (new_agent env) as [a|]; [|done]. split; [done|]. by exists a.
Qed.

(** X15.  [init_project] returns the mapping of an activated project with
    the [created] flag of the activation; when the activation raises it
    returns the mapping of the loaded project with [created] false; in all
    other cases (no agent, nothing loaded) it raises [RuntimeError], and
    nothing else. *)
Theorem init_project_outcomes (self : SerenaClient Agent) :
  (Native.init_project env lib self).1 =
  match agent_obtained env self with
  | None => Raise RuntimeError
  | Some a =>
      match Native.activate_project_from_path_or_name _ _ lib a (project_root self) with
      | Ok (project, created) => Ok (Native.init_result lib project created)
      | Raise _ =>
          match Native.load_project_from_path_or_name _ _ lib a (project_root self) with
          | Ok (Some project) => Ok (Native.init_result lib project false)
          | _ => Raise RuntimeError
          end
      end
  end.
Proof.
  unfold Native.init_project, and_then. rewrite ensure_agent_outcome.
  destruct (agent_obtained env self) as [a|]; [|done].
  unfold try_except, and_then, Native.with_agent, returning, raising.
  cbn [agent project_root].
  destruct (Native.activate_project_from_path_or_name _ _ lib a _)
    as [[project created]|e]; [done|]. cbn [agent project_root].
  by destruct (Native.load_project_from_path_or_name _ _ lib a _) as [[p|]|].
Qed.

(** X16.  [index_project] returns, with the status [indexing_triggered]
    and the name of the project, only when the agent is there and the
    activation and the reset of the language servers both return; any
    failure comes out as [RuntimeError]. *)
Theorem index_project_outcomes (self : SerenaClient Agent) :
  (Native.index_project env lib self).1 =
  match agent_obtained env self with
  | None => Raise RuntimeError
  | Some a =>
      match Native.activate_project_from_path_or_name _ _ lib a (project_root self),
            Native.reset_language_server_manager _ _ lib a with
      | Ok (project, _), Ok _ =>
          Ok (<["status":=JStr "indexing_triggered"]>
              {[ "project" := JStr (Native.project_name _ _ lib project) ]})
      | _, _ => Raise RuntimeError
      end
  end.
Proof.
  unfold Native.index_project, and_then. rewrite ensure_agent_outcome.
  destruct (agent_obtained env self) as [a|]; [|done].
  unfold try_except, and_then, Native.with_agent, returning, raising.
  cbn [agent project_root].
  destruct (Native.activate_project_from_path_or_name _ _ lib a _)
    as [[project created]|e];
    [|by destruct (Native.reset_language_server_manager _ _ lib a)].
  cbn [agent project_root].
  by destruct (Native.reset_language_server_manager _ _ lib a).
Qed.

Lemma find_symbol_value (self : SerenaClient Agent) (name : str)
    (language : option str) :
  (Native.find_symbol json_loads env lib name language self).1 =
  match agent_obtained env self with
  | None => Raise RuntimeError
  | Some a =>
      match Native.activate_project_from_path_or_name _ _ lib a (project_root self) with
      | Raise e => Raise e
      | Ok _ =>
          match Native.find_symbol_tool _ _ lib a name with
          | Raise e => Raise e
          | Ok answer =>
              match json_loads answer with
              | Ok loaded => Ok loaded
              | Raise JSONDecodeError => Ok (Native.parse_failure answer)
              | Raise e => Raise e
              end
          end
      end
  end.
Proof.
  unfold Native.find_symbol, and_then. rewrite ensure_agent_outcome.
  destruct (agent_obtained env self) as [a|]; [|done].
  unfold Native.with_agent, returning, raising. cbn [agent project_root].
  destruct (Native.activate_project_from_path_or_name _ _ lib a _) as [?|e];
    [|done]. cbn [agent project_root].
  destruct (Native.find_symbol_tool _ _ lib a name) as [answer|e]; [|done].
  destruct (json_loads answer) as [loaded|e]; [done|]. by destruct e.
Qed.

(** X17.  [find_symbol] does not look at its [language].  An answer of
    the tool that [json.loads] rejects with [JSONDecodeError] does not
    make it raise: it returns one record with the error and the raw
    answer.  Every other exception, of [json.loads] or of the library,
    comes out as it is, and a missing agent is a [RuntimeError]. *)
Theorem find_symbol_outcomes (self : SerenaClient Agent) (name : str)
    (language : option str) :
  (Native.find_symbol json_loads env lib name language self).1 =
  match agent_obtained env self with
  | None => Raise RuntimeError
  | Some a =>
      match Native.activate_project_from_path_or_name _ _ lib a (project_root self) with
      | Raise e => Raise e
      | Ok _ =>
          match Native.find_symbol_tool _ _ lib a name with
          | Raise e => Raise e
          | Ok answer =>
              match json_loads answer with
              | Ok loaded => Ok loaded
              | Raise JSONDecodeError =>
                  Ok (JList [JDict (<["error":=JStr "Failed to parse JSON response"]>
                                    {[ "raw" := JStr answer ]})])
              | Raise e => Raise e
              end
          end
      end
  end.
Proof. exact (find_symbol_value self name language). Qed.

Lemma file_overview_value (self : SerenaClient Agent) (path : str) :
  (Native.file_overview env lib path self).1 =
  match agent_obtained env self with
  | None => Raise RuntimeError
  | Some a =>
      match Native.activate_project_from_path_or_name _ _ lib a (project_root self),
            Native.get_symbols_overview_tool _ _ lib a with
      | Raise e, _ => Raise e
      | Ok _, Raise e => Raise e
      | Ok _, Ok _ => Raise Native.NameError
      end
  end.
Proof.
  unfold Native.file_overview, and_then. rewrite ensure_agent_outcome.
  destruct (agent_obtained env self) as [a|]; [|done].
  unfold Native.with_agent, raising. cbn [agent project_root].
  destruct (Native.activate_project_from_path_or_name _ _ lib a _) as [?|e];
    [|done]. cbn [agent project_root].
  by destruct (Native.get_symbols_overview_tool _ _ lib a).
Qed.

Lemma find_references_value (self : SerenaClient Agent) (name path : str) :
  (Native.find_references env lib name path self).1 =
  match agent_obtained env self with
  | None => Raise RuntimeError
  | Some a =>
      match Native.activate_project_from_path_or_name _ _ lib a (project_root self),
            Native.find_referencing_symbols_tool _ _ lib a with
      | Raise e, _ => Raise e
      | Ok _, Raise e => Raise e
      | Ok _, Ok _ => Raise Native.NameError
      end
  end.
Proof.
  unfold Native.find_references, and_then. rewrite ensure_agent_outcome.
  destruct (agent_obtained env self) as [a|]; [|done].
  unfold Native.with_agent, raising. cbn [agent project_root].
  destruct (Native.activate_project_from_path_or_name _ _ lib a _) as [?|e];
    [|done]. cbn [agent project_root].
  by destruct (Native.find_referencing_symbols_tool _ _ lib a).
Qed.

(** X18.  [file_overview] and [find_references] never return.  When the
    agent, the activation and the tool are all there, the call of
    [os.path.relpath] raises [NameError], the module having no [os];
    before that, a missing agent is a [RuntimeError] and what the library
    raises comes out as it is. *)
Theorem overview_and_references_raise (self : SerenaClient Agent)
    (name path : str) :
  (Native.file_overview env lib path self).1 =
    match agent_obtained env self with
    | None => Raise RuntimeError
    | Some a =>
        match Native.activate_project_from_path_or_name _ _ lib a (project_root self),
              Native.get_symbols_overview_tool _ _ lib a with
        | Raise e, _ => Raise e
        | Ok _, Raise e => Raise e
        | Ok _, Ok _ => Raise Native.NameError
        end
    end /\
  (Native.find_references env lib name path self).1 =
    match agent_obtained env self with
    | None => Raise RuntimeError
    | Some a =>
        match Native.activate_project_from_path_or_name _ _ lib a (project_root self),
              Native.find_referencing_symbols_tool _ _ lib a with
        | Raise e, _ => Raise e
        | Ok _, Raise e => Raise e
        | Ok _, Ok _ => Raise Native.NameError
        end
    end /\
  (forall v, (Native.file_overview env lib path self).1 <> Ok v) /\
  (forall v, (Native.find_references env lib name path self).1 <> Ok v).
Proof.
  rewrite file_overview_value, find_references_value.
  split; [done|]. split; [done|].
  destruct (agent_obtained env self) as [a|]; [|done].
  destruct (Native.activate_project_from_path_or_name _ _ lib a _); [|done].
  split.
  - by destruct (Native.get_symbols_overview_tool _ _ lib a).
  - by destruct (Native.find_referencing_symbols_tool _ _ lib a).
Qed.

(** ** The command line *)

Lemma get_status_value (self : SerenaClient Agent) :
  (get_status env self).1 =
  Ok (status_of (SERENA_AVAILABLE env) (project_obtained env self)).
Proof.
  unfold get_status, project_obtained, status_of, try_except, and_then.
  cbn beta zeta. destruct (SERENA_AVAILABLE env) eqn:Havailable;
    [|by unfold agent_obtained; rewrite Havailable].
  rewrite ensure_agent_outcome. unfold agent_obtained. rewrite Havailable.
  destruct (agent self) as [a|] eqn:Hagent.
  - cbn [agent project_root]. unfold call, returning.
    by destruct (get_project env a (project_root self)) as [[p|]|].
  - destruct (new_agent env) as [a|]; [|done].
    cbn [agent project_root]. unfold call, returning.
    by destruct (get_project env a (project_root self)) as [[p|]|].
Qed.



(** X19.  [project status] always ends with status 0.  It prints the
    mapping of [get_status], in text mode as the three lines for the
    availability of Serena, the detection of the project and the state of
    the index, and the only thing it logs is that Serena is missing. *)
Theorem status_command_output (fmt : output_format) (root : str) :
  let detected := project_obtained env {| project_root := root; agent := None |} in
  Native.main json_loads env lib fmt root Native.project_status =
  {| Native.native_stdout :=
       match fmt with
       | Json =>
           [Native.Document (JDict (status_of (SERENA_AVAILABLE env) detected))]
       | Text =>
           [Native.Labelled "Serena Available" (JBool (SERENA_AVAILABLE env));
            Native.Labelled "Project Detected" (JBool detected);
            Native.Labelled "Index State"
              (JStr (if detected then "configured" else "unknown"))]
       end;
     Native.native_stderr :=
       if SERENA_AVAILABLE env then [] else [Native.NotInstalled];
     Native.native_exit := 0 |}.
Proof.
  intros detected. unfold Native.main, Native.dispatch, and_then.
  pose proof (get_status_value {| project_root := root; agent := None |}) as H.
  destruct (get_status env _) as [r self']. cbn [fst] in H. subst r.
  unfold returning. cbn [fst]. fold detected.
  destruct fmt; [|done].
  unfold Native.print_text_output, Native.print_project_text, Native.get_or_None.
  by destruct (SERENA_AVAILABLE env), detected.
Qed.

(** X20.  Without the Serena library every command but [project status]
    fails with [RuntimeError] and status 1, the library never being
    called: the JSON mode prints the error document, the text mode prints
    nothing and logs the error after the message that Serena is missing. *)
Theorem unavailable_commands_fail (fmt : output_format) (root : str)
    (c : Native.native_command) :
  SERENA_AVAILABLE env = false ->
  c <> Native.project_status ->
  Native.main json_loads env lib fmt root c =
  match fmt with
  | Json => {| Native.native_stdout := [Native.ErrorDocument RuntimeError];
               Native.native_stderr := [Native.NotInstalled];
               Native.native_exit := 1 |}
  | Text => {| Native.native_stdout := [];
               Native.native_stderr :=
                 [Native.NotInstalled; Native.Failure RuntimeError];
               Native.native_exit := 1 |}
  end.
Proof.
  intros Hmissing Hc. unfold Native.main. rewrite Hmissing.
  assert ((Native.dispatch json_loads env lib c
             {| project_root := root; agent := None |}).1 = Raise RuntimeError)
    as ->; [|by destruct fmt].
  destruct c; [| |done| | |];
    unfold Native.dispatch, Native.init_project, Native.index_project,
      Native.find_symbol, Native.file_overview, Native.find_references,
      and_then;
    rewrite ensure_agent_outcome; unfold agent_obtained;
    by rewrite Hmissing.
Qed.

(** X21.  [query file-overview] and [query references] fail whatever the
    library does: the status is 1, the JSON mode prints an error document
    and the text mode prints nothing. *)
Theorem overview_and_references_fail (fmt : output_format)
    (root name path : str) :
  (exists e, Native.main json_loads env lib fmt root
               (Native.query_file_overview path) =
             failed_with fmt (SERENA_AVAILABLE env) e) /\
  (exists e, Native.main json_loads env lib fmt root
               (Native.query_references name path) =
             failed_with fmt (SERENA_AVAILABLE env) e).
Proof.
  unfold Native.main, Native.dispatch, failed_with.
  rewrite file_overview_value, find_references_value.
  destruct (agent_obtained env _) as [a|];
    [|by split; eexists; destruct fmt].
  destruct (Native.activate_project_from_path_or_name _ _ lib a _);
    [|by split; eexists; destruct fmt].
  split.
  - by destruct (Native.get_symbols_overview_tool _ _ lib a);
      eexists; destruct fmt.
  - by destruct (Native.find_referencing_symbols_tool _ _ lib a);
      eexists; destruct fmt.
Qed.

(** X22.  An answer of the symbol tool that [json.loads] rejects with
    [JSONDecodeError] is no failure of [query find-symbol]: the status is
    0; the text mode prints the line of the error, and the JSON mode the
    record with the error and the raw answer.  An answer on which
    [json.loads] raises any other exception is a failure, with status 1. *)
Theorem unparsable_answer_reported (root name : str)
    (language : option str) (a : Agent) (p : Project * bool)
    (answer : str) :
  agent_obtained env {| project_root := root; agent := None |} = Some a ->
  Native.activate_project_from_path_or_name _ _ lib a root = Ok p ->
  Native.find_symbol_tool _ _ lib a name = Ok answer ->
  (json_loads answer = Raise JSONDecodeError ->
   Native.main json_loads env lib Text root
     (Native.query_find_symbol name language) =
     {| Native.native_stdout :=
          [Native.ErrorItemLine (JStr "Failed to parse JSON response")];
        Native.native_stderr := [];
        Native.native_exit := 0 |} /\
   Native.main json_loads env lib Json root
     (Native.query_find_symbol name language) =
     {| Native.native_stdout :=
          [Native.Document
             (JList [JDict (<["error":=JStr "Failed to parse JSON response"]>
                            {[ "raw" := JStr answer ]})])];
        Native.native_stderr := [];
        Native.native_exit := 0 |}) /\
  (forall e fmt,
     json_loads answer = Raise e -> e <> JSONDecodeError ->
     Native.main json_loads env lib fmt root
       (Native.query_find_symbol name language) = failed_with fmt true e).
Proof.
  intros Hagent Hactivate Htool.
  assert (SERENA_AVAILABLE env = true) as Havailable.
  { revert Hagent. unfold agent_obtained. by destruct (SERENA_AVAILABLE env). }
  unfold Native.main, Native.dispatch, failed_with.
  rewrite find_symbol_value, Hagent.
  cbn [project_root]. rewrite Hactivate, Htool, Havailable. split.
  - intros ->. by split.
  - intros e fmt -> He. by destruct e, fmt.
Qed.


(** X24.  In text mode [project init] prints the status [ok] and the name
    of the activated project, and [project index] prints only the status
    [indexing_triggered]: the mapping of [index_project] holds the name
    under [project], which the text mode does not look for. *)
Theorem project_text_output (root : str) (a : Agent)
    (project : Project) (created : bool) :
  agent_obtained env {| project_root := root; agent := None |} = Some a ->
  Native.activate_project_from_path_or_name _ _ lib a root = Ok (project, created) ->
  Native.main json_loads env lib Text root Native.project_init =
    {| Native.native_stdout :=
         [Native.Labelled "Status" (JStr "ok");
          Native.Labelled "Project" (JStr (Native.project_name _ _ lib project))];
       Native.native_stderr := [];
       Native.native_exit := 0 |} /\
  (Native.reset_language_server_manager _ _ lib a = Ok tt ->
   Native.main json_loads env lib Text root Native.project_index =
    {| Native.native_stdout :=
         [Native.Labelled "Status" (JStr "indexing_triggered")];
       Native.native_stderr := [];
       Native.native_exit := 0 |}).
Proof.
  intros Hagent Hactivate.
  assert (SERENA_AVAILABLE env = true) as Havailable.
  { revert Hagent. unfold agent_obtained. by destruct (SERENA_AVAILABLE env). }
  unfold Native.main, Native.dispatch, Native.init_project,
    Native.index_project, and_then, try_except.
  rewrite ensure_agent_outcome, Hagent, Havailable.
  unfold Native.with_agent, returning. cbn [agent project_root].
  rewrite Hactivate. cbn [agent project_root fst snd]. split.
  - by vm_compute.
  - intros ->. by vm_compute.
Qed.

End NativeProperties.

(** With Serena missing, [project init] fails in both modes. *)
Lemma unavailable_commands_fail_witness :
  Native.main sample_loads (sample_environment false) (sample_library "")
    Json "." Native.project_init =
    {| Native.native_stdout := [Native.ErrorDocument RuntimeError];
       Native.native_stderr := [Native.NotInstalled];
       Native.native_exit := 1 |}.
Proof.
  apply (unavailable_commands_fail sample_loads (sample_environment false)
           (sample_library "") Json "." Native.project_init);
    [reflexivity|discriminate].
Defined.

(** The answer [not json] is printed as an error, with status 0; the
    answer of a thousand brackets ends the command with status 1. *)
Lemma unparsable_answer_reported_witness :
  Native.main sample_loads (sample_environment true) (sample_library "not json")
    Text "." (Native.query_find_symbol "foo" None) =
    {| Native.native_stdout :=
         [Native.ErrorItemLine (JStr "Failed to parse JSON response")];
       Native.native_stderr := [];
       Native.native_exit := 0 |} /\
  Native.main sample_loads (sample_environment true)
    (sample_library (nested 1000)) Json "." (Native.query_find_symbol "foo" None) =
    {| Native.native_stdout :=
         [Native.ErrorDocument (OtherError "RecursionError")];
       Native.native_stderr := [];
       Native.native_exit := 1 |}.
Proof.
  split.
  - apply (proj1 (unparsable_answer_reported sample_loads
                    (sample_environment true) (sample_library "not json")
                    "." "foo" None tt (".", false) "not json"
                    eq_refl eq_refl eq_refl)).
    reflexivity.
  - apply (proj2 (unparsable_answer_reported sample_loads
                    (sample_environment true) (sample_library (nested 1000))
                    "." "foo" None tt (".", false) (nested 1000)
                    eq_refl eq_refl eq_refl)
             (OtherError "RecursionError") Json);
      [by vm_compute|discriminate].
Defined.


(** The project of the root [app]. *)
Lemma project_text_output_witness :
  Native.main sample_loads (sample_environment true) (sample_library "")
    Text "app" Native.project_init =
    {| Native.native_stdout :=
         [Native.Labelled "Status" (JStr "ok");
          Native.Labelled "Project" (JStr "app")];
       Native.native_stderr := [];
       Native.native_exit := 0 |}.
Proof.
  apply (project_text_output sample_loads (sample_environment true)
           (sample_library "") "app" tt "app" false);
    reflexivity.
Defined.
